(** * Revision manifest of ember-cli-deploy-azure-tables

    A shallow embedding of [index.js]: the key codec ([_key], [_projectName],
    [_currentKey]), the revision writer ([upload]), the lister ([_list],
    [_query]) and the activation manager ([_current], [willActivate],
    [activate]), over an abstract table-service client, together with an
    in-memory table store against which the stateful properties are proved. *)

From Stdlib Require Import ZArith Ascii.
From stdpp Require Import base option list sorting strings gmap fin_maps.

Local Open Scope Z_scope.

(** ** JavaScript values that the plugin handles *)

(** An exception thrown by the plugin ([throw new Error(msg)]) or by the
    runtime (reading a property of [undefined]). *)
Inductive Exn : Type :=
| Error (msg : string)
| TypeError.

(** Entity property values: [entGen.String], [entGen.Binary], and [null]. *)
Inductive Value : Type :=
| VNull
| VString (s : string)
| VBinary (b : list Byte.byte).

(** [a || b] on a possibly missing string: [undefined] and the empty string
    are falsy. *)
Definition truthy (a : option string) : option string :=
  match a with
  | Some (String c s) => Some (String c s)
  | _ => None
  end.

(** [String.prototype.includes]. *)
Fixpoint includes (s sub : string) : bool :=
  if String.prefix sub s then true
  else match s with
       | EmptyString => false
       | String _ s' => includes s' sub
       end.

(** [Array.prototype.join]. *)
Definition join (sep : string) (l : list string) : string := String.concat sep l.

(** [current === revision], where [revision] is a string. *)
Definition strict_eq (v : Value) (s : string) : bool :=
  match v with
  | VString c => String.eqb c s
  | _ => false
  end.

(** ** Configuration and context *)

Definition AZURE_TABLE_NAME : string := "emberdeploy".
Definition AZURE_MANIFEST_TAG : string := "manifest".

Definition AZURE_DISALLOWED_VALUES : list string :=
  [ "/"; "\"; "#"; "?";
    String (ascii_of_nat 9) EmptyString;
    String (ascii_of_nat 10) EmptyString;
    String (ascii_of_nat 13) EmptyString ].

(** What [readConfig] answers. *)
Record Config : Type := {
  projectName : option string;
  tableName : string;
  manifestTag : string;
  compressIndex : bool
}.

Definition defaultConfig : Config :=
  {| projectName := None;
     tableName := AZURE_TABLE_NAME;
     manifestTag := AZURE_MANIFEST_TAG;
     compressIndex := false |}.

Record RevisionData : Type := {
  revisionKey : option string;
  previousRevisionKey : option Value;
  activatedRevisionKey : option string
}.

(** [{}] *)
Definition emptyRevisionData : RevisionData :=
  {| revisionKey := None; previousRevisionKey := None; activatedRevisionKey := None |}.

Record Context : Type := {
  commandOptions_revision : option string;
  revisionData : option RevisionData;
  project_name : string;
  distDir : string
}.

(** ** Key codec *)

Module Import ExnMonad.
Definition bind {A B : Type} (m : Exn + A) (f : A -> Exn + B) : Exn + B :=
  match m with
  | inl e => inl e
  | inr a => f a
  end.
Notation "'try' x <- m ; k" := (bind m (fun x => k))
  (at level 10, x name, m at level 100, k at level 200).
End ExnMonad.

Definition invalidNameMessage (containedChars : list string) : string :=
  "Project name contains invalid characters not supported by Azure Tables: ("
    +:+ join ", " containedChars
    +:+ "). Use the projectName configuration value to override the name.".

Definition _projectName (cfg : Config) (context : Context) : Exn + string :=
  let name := match truthy (projectName cfg) with
              | Some n => n
              | None => project_name context
              end in
  let containedChars := filter (fun v => includes name v = true) AZURE_DISALLOWED_VALUES in
  if (0 <? length containedChars)%nat
  then inl (Error (invalidNameMessage containedChars))
  else inr name.

(** The local [revisionKey] of [_key]:
    [context.commandOptions.revision || context.revisionData.revisionKey.substr(0, 8)]. *)
Definition revisionKeyOf (context : Context) : Exn + string :=
  match truthy (commandOptions_revision context) with
  | Some r => inr r
  | None =>
      match revisionData context with
      | Some rd =>
          match revisionKey rd with
          | Some h => inr (String.substring 0 8 h)
          | None => inl TypeError
          end
      | None => inl TypeError
      end
  end.

Definition _key (cfg : Config) (context : Context) : Exn + string :=
  try revisionKey <- revisionKeyOf context;
  try name <- _projectName cfg context;
  inr (name +:+ ":" +:+ revisionKey).

Definition _currentKey (cfg : Config) (context : Context) : Exn + string :=
  try name <- _projectName cfg context;
  inr (name +:+ ":current").

(** ** The table service client

    The plugin talks to the store through four calls of the azure-storage
    table service.  Each takes a node-style callback [(error, result)]; here a
    call is a state transformer that answers [inl error] or [inr result]. *)

Inductive Field : Type := PartitionKeyField | RowKeyField.
Inductive Operator : Type := OpEq | OpNe.

Record Clause : Type := { field : Field; operator : Operator; operand : string }.

(** [azure.TableQuery]: a conjunction of comparisons. *)
Definition TableQuery : Type := list Clause.

Definition where_ (f : Field) (o : Operator) (v : string) : TableQuery :=
  [ {| field := f; operator := o; operand := v |} ].

Definition and_ (q : TableQuery) (f : Field) (o : Operator) (v : string) : TableQuery :=
  (q ++ [ {| field := f; operator := o; operand := v |} ])%list.

(** The entity descriptor built with [entityGenerator]. *)
Record Entity : Type := {
  PartitionKey : string;
  RowKey : string;
  content : Value;
  compression : option string
}.

(** An entity as a query returns it: with the store-assigned timestamp
    (epoch milliseconds, what [new Date(...).getTime()] gives). *)
Record Entry : Type := { entity : Entity; Timestamp : Z }.

Inductive StoreError : Type := StorageError (code : string).

Record QueryResult (Token : Type) : Type := {
  entries : list Entry;
  continuationToken : option Token
}.
Arguments entries {Token} _.
Arguments continuationToken {Token} _.

Record TableService (St Token : Type) : Type := {
  createTableIfNotExists : string -> St -> St * (StoreError + unit);
  queryEntities : string -> TableQuery -> option Token -> St -> St * (StoreError + QueryResult Token);
  insertEntity : string -> Entity -> St -> St * (StoreError + unit);
  insertOrReplaceEntity : string -> Entity -> St -> St * (StoreError + unit)
}.
Arguments createTableIfNotExists {St Token} _ _ _.
Arguments queryEntities {St Token} _ _ _ _ _.
Arguments insertEntity {St Token} _ _ _ _.
Arguments insertOrReplaceEntity {St Token} _ _ _ _.

(** ** Promises *)

Inductive FileError : Type := FsError (code : string).

(** What a promise is rejected with. *)
Inductive Reason : Type :=
| Message (msg : string)
| StoreFailure (error : StoreError)
| FileFailure (error : FileError).

(** How an asynchronous operation of the plugin ends.  [Pending]: the
    returned promise is never settled.  [Thrown]: an exception leaves the
    operation, synchronously or out of a store callback.  [OutOfFuel]: the
    pagination loop was still running when the fuel of the model ran out. *)
Inductive Outcome (A : Type) : Type :=
| Resolved (a : A)
| Rejected (r : Reason)
| Thrown (e : Exn)
| Pending
| OutOfFuel.
Arguments Resolved {A} _.
Arguments Rejected {A} _.
Arguments Thrown {A} _.
Arguments Pending {A}.
Arguments OutOfFuel {A}.

Definition Async (St A : Type) : Type := St -> St * Outcome A.

Module Import AsyncMonad.
Definition resolve {St A : Type} (a : A) : Async St A := fun s => (s, Resolved a).
Definition reject {St A : Type} (r : Reason) : Async St A := fun s => (s, Rejected r).

(** [p.then(k)] with no rejection handler. *)
Definition then_ {St A B : Type} (p : Async St A) (k : A -> Async St B) : Async St B :=
  fun s =>
    let '(s1, o) := p s in
    match o with
    | Resolved a => k a s1
    | Rejected r => (s1, Rejected r)
    | Thrown e => (s1, Thrown e)
    | Pending => (s1, Pending)
    | OutOfFuel => (s1, OutOfFuel)
    end.

(** A store call whose callback does [if(!error) {...} else reject(error)]. *)
Definition call {St R : Type} (op : St -> St * (StoreError + R)) : Async St R :=
  fun s =>
    let '(s1, r) := op s in
    match r with
    | inl error => (s1, Rejected (StoreFailure error))
    | inr result => (s1, Resolved result)
    end.

(** A computation that may throw, run inside a callback. *)
Definition eval {St A : Type} (m : Exn + A) : Async St A :=
  fun s =>
    match m with
    | inl e => (s, Thrown e)
    | inr a => (s, Resolved a)
    end.

Notation "'await' x <- p ; k" := (then_ p (fun x => k))
  (at level 10, x name, p at level 100, k at level 200).
End AsyncMonad.

(** ** Sorting, as [Array.prototype.sort] with a comparator (stable) *)

Section Sort.
Context {A : Type} (compare : A -> A -> Z).

Fixpoint sort_insert (a : A) (l : list A) : list A :=
  match l with
  | [] => [a]
  | b :: l' => if compare a b <=? 0 then a :: b :: l' else b :: sort_insert a l'
  end.

Definition sort (l : list A) : list A := foldr sort_insert [] l.
End Sort.

(** ** The plugin *)

(** One element of what [_list] resolves with. *)
Record Revision : Type := { revision : string; timestamp : Z; active : bool }.

Section Plugin.
Context {St Token : Type}.
Variable client : TableService St Token.
Variable gzipSync : string -> list Byte.byte.
Variable readFile : string -> FileError + string.
Variable path_join : string -> string -> string.
Variable cfg : Config.

(** [new azure.TableQuery().where('PartitionKey eq ?', manifestTag).and('RowKey <op> ?', key)] *)
Definition rowQuery (op : Operator) (key : string) : TableQuery :=
  and_ (where_ PartitionKeyField OpEq (manifestTag cfg)) RowKeyField op key.

(** The comparator of [_query]: [getTime(b) - getTime(a)]. *)
Definition byTimestampDesc (a b : Entry) : Z := Timestamp b - Timestamp a.

Definition toRevision (current : Value) (entry : Entry) : Revision :=
  let revision := RowKey (entity entry) in
  {| revision := revision; timestamp := Timestamp entry; active := strict_eq current revision |}.

Fixpoint _query (fuel : nat) (token : option Token) (query : TableQuery)
    (entries0 : list Entry) (current : Value) : Async St (list Revision) :=
  match fuel with
  | O => fun s => (s, OutOfFuel)
  | S fuel' =>
      await result <- call (queryEntities client (tableName cfg) query token);
      let entries1 := (entries0 ++ entries result)%list in
      match continuationToken result with
      | None =>
          let sortedEntries := sort byTimestampDesc entries1 in
          resolve (map (toRevision current) sortedEntries)
      | Some next => _query fuel' (Some next) query entries1 current
      end
  end.

Definition _current (context : Context) : Async St Value :=
  await _ <- call (createTableIfNotExists client (tableName cfg));
  await currentKey <- eval (_currentKey cfg context);
  let query := rowQuery OpEq currentKey in
  await result <- call (queryEntities client (tableName cfg) query None);
  match entries result with
  | entry :: _ => resolve (content (entity entry))
  | [] => resolve VNull
  end.

Definition _list (fuel : nat) (context : Context) : Async St (list Revision) :=
  await current <- _current context;
  await _ <- call (createTableIfNotExists client (tableName cfg));
  await currentKey <- eval (_currentKey cfg context);
  let query := rowQuery OpNe currentKey in
  _query fuel None query [] current.

Definition duplicateMessage : string :=
  "Key already in manifest - revision already uploaded or collided.".

Definition upload (context : Context) : Async St unit :=
  fun s =>
    match _key cfg context with
    | inl e => (s, Thrown e)
    | inr key =>
        match readFile (path_join (distDir context) "index.html") with
        | inl error => (s, Rejected (FileFailure error))
        | inr buffer =>
            let indexContents :=
              if compressIndex cfg then VBinary (gzipSync buffer) else VString buffer in
            (await _ <- call (createTableIfNotExists client (tableName cfg));
             let query := rowQuery OpEq key in
             await result <- call (queryEntities client (tableName cfg) query None);
             if (0 <? length (entries result))%nat
             then reject (Message duplicateMessage)
             else
               let entity :=
                 {| PartitionKey := manifestTag cfg;
                    RowKey := key;
                    content := indexContents;
                    compression := if compressIndex cfg then Some "gzip" else None |} in
               call (insertEntity client (tableName cfg) entity)) s
        end
    end.

Definition setPreviousRevisionKey (context : Context) (current : Value) : Context :=
  let rd := default emptyRevisionData (revisionData context) in
  {| commandOptions_revision := commandOptions_revision context;
     revisionData := Some {| revisionKey := revisionKey rd;
                             previousRevisionKey := Some current;
                             activatedRevisionKey := activatedRevisionKey rd |};
     project_name := project_name context;
     distDir := distDir context |}.

Definition setActivatedRevisionKey (context : Context) (key : string) : Context :=
  let rd := default emptyRevisionData (revisionData context) in
  {| commandOptions_revision := commandOptions_revision context;
     revisionData := Some {| revisionKey := revisionKey rd;
                             previousRevisionKey := previousRevisionKey rd;
                             activatedRevisionKey := Some key |};
     project_name := project_name context;
     distDir := distDir context |}.

(** Resolves with the context as the callback leaves it. *)
Definition willActivate (context : Context) : Async St Context :=
  await current <- _current context;
  resolve (setPreviousRevisionKey context current).

Definition notInManifestMessage (key : string) : string :=
  "Revision " +:+ key +:+ " not in manifest".

(** [activate] wraps the chain [_list(context).then(f1).then(f2)] in a new
    promise.  [f1] calls [reject] when the key is not listed and returns
    [false]; [f2] takes no argument and always runs after [f1], so the
    pointer is upserted in both cases.  A promise settles once: the later
    [resolve] or [reject] of the insert callback is ignored after [f1]
    rejected.  When [_list] rejects, neither callback runs and the new
    promise is never settled. *)
Definition activate (fuel : nat) (context : Context) : Async St Context :=
  fun s =>
    match _key cfg context with
    | inl e => (s, Thrown e)
    | inr key =>
        match _projectName cfg context with
        | inl e => (s, Thrown e)
        | inr projectName =>
            let '(s1, listed) := _list fuel context s in
            match listed with
            | Resolved existingEntries =>
                let found :=
                  existsb (fun entry => String.eqb (revision entry) key) existingEntries in
                let entity :=
                  {| PartitionKey := manifestTag cfg;
                     RowKey := projectName +:+ ":current";
                     content := VString key;
                     compression := None |} in
                let '(s2, r) := insertOrReplaceEntity client (tableName cfg) entity s1 in
                if found then
                  match r with
                  | inr _ => (s2, Resolved (setActivatedRevisionKey context key))
                  | inl error => (s2, Rejected (StoreFailure error))
                  end
                else (s2, Rejected (Message (notInManifestMessage key)))
            | Rejected _ => (s1, Pending)
            | Thrown e => (s1, Thrown e)
            | Pending => (s1, Pending)
            | OutOfFuel => (s1, OutOfFuel)
            end
        end
    end.

(** [fetchRevisions] and [fetchInitialRevisions] wrap [_list]. *)
Definition fetchRevisions (fuel : nat) (context : Context) : Async St (list Revision) :=
  _list fuel context.
End Plugin.

(** Most recent first. *)
Definition newestFirst (a b : Revision) : Prop := timestamp b <= timestamp a.
Definition entryNewestFirst (a b : Entry) : Prop := Timestamp b <= Timestamp a.

(** ** The continuation-token protocol *)

Section Protocol.
Context {St Token : Type}.
Variable client : TableService St Token.
Variables (name : string) (q : TableQuery).

(** [serves token s pages s']: resumed at [token] in state [s], the query
    is answered in [length pages] successive responses, each but the last
    carrying the continuation token of the next; [s'] is the state after
    the last response. *)
Inductive serves : option Token -> St -> list (list Entry) -> St -> Prop :=
| serves_last token s s' p :
    queryEntities client name q token s
      = (s', inr {| entries := p; continuationToken := None |}) ->
    serves token s [p] s'
| serves_more token s s1 s' p next ps :
    queryEntities client name q token s
      = (s1, inr {| entries := p; continuationToken := Some next |}) ->
    serves (Some next) s1 ps s' ->
    serves token s (p :: ps) s'.

(** [failsAfter token s pages error s']: the responses [pages] are served,
    all with a continuation token, and the next fetch fails with [error]. *)
Inductive failsAfter : option Token -> St -> list (list Entry) -> StoreError -> St -> Prop :=
| fails_now token s s' error :
    queryEntities client name q token s = (s', inl error) ->
    failsAfter token s [] error s'
| fails_later token s s1 s' p next ps error :
    queryEntities client name q token s
      = (s1, inr {| entries := p; continuationToken := Some next |}) ->
    failsAfter (Some next) s1 ps error s' ->
    failsAfter token s (p :: ps) error s'.
End Protocol.

(** ** An in-memory table store *)

Module MemStore.
(** What the store keeps for a row besides its two keys. *)
Record Row : Type := { rowContent : Value; rowCompression : option string; rowTimestamp : Z }.

(** Modelled from the spec: the Table Store collaborator of section 6 (the
    azure-storage client is a dependency, not part of the sources).  Tables
    are addressed by name and rows by partition key and row key; a write
    stamps the row with the store's clock; a query is served in pages of at
    most [S pageLimit] entries, the continuation token being the offset of
    the next page; [faults] schedules the outcome of the coming calls, one
    element per call ([Some error]: the call fails with [error] and has no
    effect). *)
Record State : Type := {
  tables : gmap string (gmap (string * string) Row);
  clock : Z;
  pageLimit : nat;
  faults : list (option StoreError)
}.

Definition withTables (s : State) (t : gmap string (gmap (string * string) Row)) : State :=
  {| tables := t; clock := clock s; pageLimit := pageLimit s; faults := faults s |}.

Definition withFaults (s : State) (f : list (option StoreError)) : State :=
  {| tables := tables s; clock := clock s; pageLimit := pageLimit s; faults := f |}.

Definition tick (s : State) : State :=
  {| tables := tables s; clock := clock s + 1; pageLimit := pageLimit s; faults := faults s |}.

(** Every call first consults the fault schedule. *)
Definition guarded {R : Type} (op : State -> State * (StoreError + R)) (s : State)
    : State * (StoreError + R) :=
  match faults s with
  | [] => op s
  | None :: rest => op (withFaults s rest)
  | Some error :: rest => (withFaults s rest, inl error)
  end.

Definition rowsOf (s : State) (name : string) : gmap (string * string) Row :=
  default ∅ (tables s !! name).

Definition matchesClause (k : string * string) (c : Clause) : bool :=
  let v := match field c with
           | PartitionKeyField => k.1
           | RowKeyField => k.2
           end in
  match operator c with
  | OpEq => String.eqb v (operand c)
  | OpNe => negb (String.eqb v (operand c))
  end.

Definition matchesKey (q : TableQuery) (k : string * string) : bool :=
  forallb (matchesClause k) q.

Definition toEntry (kr : (string * string) * Row) : Entry :=
  {| entity := {| PartitionKey := kr.1.1;
                  RowKey := kr.1.2;
                  content := rowContent kr.2;
                  compression := rowCompression kr.2 |};
     Timestamp := rowTimestamp kr.2 |}.

(** All entities of a table that a query selects. *)
Definition select (q : TableQuery) (t : gmap (string * string) Row) : list Entry :=
  toEntry <$> map_to_list (filter (fun kr => matchesKey q kr.1 = true) t).

Definition page (limit : nat) (token : option nat) (all : list Entry) : QueryResult nat :=
  let offset := default 0%nat token in
  {| entries := take (S limit) (drop offset all);
     continuationToken :=
       if (offset + S limit <? length all)%nat then Some (offset + S limit)%nat else None |}.

Definition tableNotFound : StoreError := StorageError "TableNotFound".
Definition entityAlreadyExists : StoreError := StorageError "EntityAlreadyExists".

Definition mkRow (s : State) (e : Entity) : Row :=
  {| rowContent := content e; rowCompression := compression e; rowTimestamp := clock s |}.

Definition createTable (name : string) (s : State) : State * (StoreError + unit) :=
  match tables s !! name with
  | Some _ => (s, inr tt)
  | None => (withTables s (<[name := ∅]> (tables s)), inr tt)
  end.

Definition query (name : string) (q : TableQuery) (token : option nat) (s : State)
    : State * (StoreError + QueryResult nat) :=
  match tables s !! name with
  | Some t => (s, inr (page (pageLimit s) token (select q t)))
  | None => (s, inl tableNotFound)
  end.

Definition insert_ (name : string) (e : Entity) (s : State) : State * (StoreError + unit) :=
  match tables s !! name with
  | Some t =>
      match t !! (PartitionKey e, RowKey e) with
      | Some _ => (s, inl entityAlreadyExists)
      | None =>
          (tick (withTables s (<[name := <[(PartitionKey e, RowKey e) := mkRow s e]> t]> (tables s))),
           inr tt)
      end
  | None => (s, inl tableNotFound)
  end.

Definition upsert (name : string) (e : Entity) (s : State) : State * (StoreError + unit) :=
  match tables s !! name with
  | Some t =>
      (tick (withTables s (<[name := <[(PartitionKey e, RowKey e) := mkRow s e]> t]> (tables s))),
       inr tt)
  | None => (s, inl tableNotFound)
  end.

Definition client : TableService State nat :=
  {| createTableIfNotExists := fun name => guarded (createTable name);
     queryEntities := fun name q token => guarded (query name q token);
     insertEntity := fun name e => guarded (insert_ name e);
     insertOrReplaceEntity := fun name e => guarded (upsert name e) |}.

(** The state after a successful [createTableIfNotExists]. *)
Definition ensure (name : string) (s : State) : State :=
  match tables s !! name with
  | Some _ => s
  | None => withTables s (<[name := ∅]> (tables s))
  end.

(** The state after a successful write of [e]. *)
Definition written (name : string) (e : Entity) (s : State) : State :=
  tick (withTables s
          (<[name := <[(PartitionKey e, RowKey e) := mkRow s e]> (rowsOf s name)]> (tables s))).

(** What the pointer row [(tag, key)] of a table holds, [null] without it. *)
Definition pointerValue (tag key : string) (t : gmap (string * string) Row) : Value :=
  match t !! (tag, key) with
  | Some row => rowContent row
  | None => VNull
  end.

(** The entries that the pagination loop of [_query] has accumulated when
    the store answers without a token; [None] when the fuel ends before. *)
Fixpoint fetchAll (fuel limit offset : nat) (all acc : list Entry) : option (list Entry) :=
  match fuel with
  | O => None
  | S fuel' =>
      let acc' := acc ++ take (S limit) (drop offset all) in
      if (offset + S limit <? length all)%nat
      then fetchAll fuel' limit (offset + S limit) all acc'
      else Some acc'
  end.

(** The pointer entity that [activate] writes. *)
Definition pointerEntity (cfg : Config) (ck key : string) : Entity :=
  {| PartitionKey := manifestTag cfg; RowKey := ck; content := VString key;
     compression := None |}.

(** What the listing query of [_list] selects in state [s], for the
    pointer key [ck]. *)
Definition listed (cfg : Config) (ck : string) (s : State) : list Entry :=
  select (rowQuery cfg OpNe ck) (rowsOf s (tableName cfg)).

(** The store with no table. *)
Definition empty (limit : nat) : State :=
  {| tables := ∅; clock := 0; pageLimit := limit; faults := [] |}.
End MemStore.


(** ** Sample inputs *)

Module Samples.
Definition context (name : string) (revision : option string) (hash : option string) : Context :=
  {| commandOptions_revision := revision;
     revisionData :=
       match hash with
       | Some h => Some {| revisionKey := Some h;
                           previousRevisionKey := None;
                           activatedRevisionKey := None |}
       | None => None
       end;
     project_name := name;
     distDir := "dist" |}.

(** [--revision abc] in project [app]. *)
Definition ctxAbc : Context := context "app" (Some "abc") None.
(** [--revision current] in project [app]. *)
Definition ctxCurrent : Context := context "app" (Some "current") None.
(** Project [a] with revision [b:c], and project [a:b] with revision [c]. *)
Definition ctxA : Context := context "a" (Some "b:c") None.
Definition ctxAB : Context := context "a:b" (Some "c") None.
(** Project [a:c] with the hash-derived revision [d0e1f2a3]. *)
Definition ctxACd : Context := context "a:c" None (Some "d0e1f2a3b4c5").
(** Builds [def45678] (by hash) and [ghi] of project [app], and [--revision zzz]. *)
Definition ctxDef : Context := context "app" None (Some "def456789abc").
Definition ctxGhi : Context := context "app" (Some "ghi") None.
Definition ctxZzz : Context := context "app" (Some "zzz") None.

Definition gzipSync (contents : string) : list Byte.byte := [Byte.x1f; Byte.x8b].
Definition path_join (a b : string) : string := a +:+ "/" +:+ b.
Definition readFile (path : string) : FileError + string :=
  if String.eqb path "dist/index.html" then inr "<html></html>" else inl (FsError "ENOENT").

Definition deploy (context : Context) (s : MemStore.State) : MemStore.State :=
  (upload MemStore.client gzipSync readFile path_join defaultConfig context s).1.

(** One revision uploaded, then two more; pages of one entry. *)
Definition store1 : MemStore.State := deploy ctxAbc (MemStore.empty 0).
Definition store3 : MemStore.State := deploy ctxGhi (deploy ctxDef store1).
(** [store3] after [app:abc] was activated. *)
Definition store3active : MemStore.State :=
  (activate MemStore.client defaultConfig 5 ctxAbc store3).1.

Definition serverBusy : StoreError := StorageError "ServerBusy".
(** [store3] when the fifth call to come fails. *)
Definition store3flaky : MemStore.State :=
  MemStore.withFaults store3 [None; None; None; None; Some serverBusy].

Definition entryOf (key : string) (t : Z) : Entry :=
  {| entity := {| PartitionKey := "manifest"; RowKey := key;
                  content := VString "<html></html>"; compression := None |};
     Timestamp := t |}.

(** The three pages in which [store3] answers the listing query. *)
Definition pages3 : list (list Entry) :=
  [[entryOf "app:ghi" 2]; [entryOf "app:abc" 0]; [entryOf "app:def45678" 1]].

Definition listing3 (activeAbc : bool) : list Revision :=
  [ {| revision := "app:ghi"; timestamp := 2; active := false |};
    {| revision := "app:def45678"; timestamp := 1; active := false |};
    {| revision := "app:abc"; timestamp := 0; active := activeAbc |} ].
End Samples.

(** ** More sample inputs *)

Module Samples2.
(** Two builds of [app] whose hashes agree on the first eight characters. *)
Definition ctxHashA : Context := Samples.context "app" None (Some "0123456789abcdef").
Definition ctxHashB : Context := Samples.context "app" None (Some "01234567ffffffff").
(** A project name with a slash and a tab. *)
Definition ctxBadName : Context :=
  Samples.context ("my/app" +:+ String (ascii_of_nat 9) EmptyString) (Some "abc") None.
(** A file system whose [index.html] holds the text [app:abc]. *)
Definition readKeyFile (path : string) : FileError + string := inr "app:abc".
(** Neither [--revision] nor revision data. *)
Definition ctxNoRevision : Context := Samples.context "app" None None.
(** The same store as [Samples.store3], served in pages of two entries. *)
Definition store3wide : MemStore.State :=
  {| MemStore.tables := MemStore.tables Samples.store3;
     MemStore.clock := MemStore.clock Samples.store3;
     MemStore.pageLimit := 1;
     MemStore.faults := [] |}.
(** [Samples.store3] when the next call fails. *)
Definition store3down : MemStore.State :=
  MemStore.withFaults Samples.store3 [Some Samples.serverBusy].
(** [Samples.store3] when the listing is served and the upsert fails. *)
Definition store3upsertFails : MemStore.State :=
  MemStore.withFaults Samples.store3
    [None; None; None; None; None; None; Some Samples.serverBusy].
End Samples2.

(** The same store serving pages of at most [S limit] entries. *)
Definition withPageLimit (s : MemStore.State) (limit : nat) : MemStore.State :=
  {| MemStore.tables := MemStore.tables s;
     MemStore.clock := MemStore.clock s;
     MemStore.pageLimit := limit;
     MemStore.faults := MemStore.faults s |}.

(** * Properties *)

(** ** Key codec *)

Section KeyCodec.
Lemma append_nil_l (s : string) : "" +:+ s = s.
Proof. reflexivity. Qed.

Lemma append_cons (c : ascii) (p s : string) : String c p +:+ s = String c (p +:+ s).
Proof. reflexivity. Qed.

Lemma append_cancel_l (p a b : string) : p +:+ a = p +:+ b -> a = b.
Proof.
  induction p as [|c p IH]; [done|].
  rewrite !append_cons. intros [= H]. auto.
Qed.

Lemma includes_cons_colon (c : ascii) (s : string) :
  includes (String c s) ":" = false -> c <> ":"%char /\ includes s ":" = false.
Proof.
  cbn [includes String.prefix]. destruct (ascii_dec ":" c) as [<-|Hne].
  - by destruct s.
  - intros H. split; [congruence|]. exact H.
Qed.

(** The first colon of [p:r] ends [p] when [p] has no colon. *)
Lemma split_at_colon (p1 p2 r1 r2 : string) :
  includes p1 ":" = false -> includes p2 ":" = false ->
  p1 +:+ ":" +:+ r1 = p2 +:+ ":" +:+ r2 -> p1 = p2 /\ r1 = r2.
Proof.
  revert p2. induction p1 as [|c p1 IH]; intros [|d p2] H1 H2;
    rewrite ?append_nil_l, ?append_cons, ?append_nil_l.
  - by intros [= ->].
  - intros [= <- _]. apply includes_cons_colon in H2 as [? _]. done.
  - intros [= -> _]. apply includes_cons_colon in H1 as [? _]. done.
  - intros [= -> Heq].
    apply includes_cons_colon in H1 as [_ H1].
    apply includes_cons_colon in H2 as [_ H2].
    destruct (IH p2 H1 H2 Heq) as [-> ->]. done.
Qed.

Lemma _key_eq (cfg : Config) (context : Context) (p r : string) :
  _projectName cfg context = inr p -> revisionKeyOf context = inr r ->
  _key cfg context = inr (p +:+ ":" +:+ r).
Proof. unfold _key. intros -> ->. done. Qed.

Lemma _currentKey_eq (cfg : Config) (context : Context) (p : string) :
  _projectName cfg context = inr p -> _currentKey cfg context = inr (p +:+ ":current").
Proof. unfold _currentKey. intros ->. done. Qed.

Lemma _key_inv (cfg : Config) (context : Context) (k : string) :
  _key cfg context = inr k ->
  exists p r, _projectName cfg context = inr p /\ revisionKeyOf context = inr r
              /\ k = p +:+ ":" +:+ r.
Proof.
  unfold _key. destruct (revisionKeyOf context) as [|r]; [done|].
  destruct (_projectName cfg context) as [|p]; [done|].
  simpl. intros [= <-]. eauto.
Qed.

Lemma _currentKey_inv (cfg : Config) (context : Context) (ck : string) :
  _currentKey cfg context = inr ck ->
  exists p, _projectName cfg context = inr p /\ ck = p +:+ ":current".
Proof.
  unfold _currentKey. destruct (_projectName cfg context) as [|p]; [done|].
  simpl. intros [= <-]. eauto.
Qed.
End KeyCodec.

(** A name that [_projectName] returns contains no disallowed character. *)
Lemma _projectName_valid (cfg : Config) (context : Context) (p : string) :
  _projectName cfg context = inr p ->
  Forall (fun v => includes p v = false) AZURE_DISALLOWED_VALUES.
Proof.
  unfold _projectName.
  set (name := match truthy (projectName cfg) with Some n => n | None => project_name context end).
  destruct (filter _ AZURE_DISALLOWED_VALUES) as [|v l] eqn:Hf; [|done].
  intros [= <-]. apply Forall_forall. intros v Hv.
  destruct (includes name v) eqn:Hi; [|done].
  assert (v ∈ filter (fun v => includes name v = true) AZURE_DISALLOWED_VALUES) as Hin
    by (apply list_elem_of_filter; done).
  rewrite Hf in Hin. by apply not_elem_of_nil in Hin.
Qed.

(** C4, as stated, fails: with the explicit revision [current] the derived
    row key of project [app] is the pointer key [app:current]. *)
Lemma current_key_collision :
  _projectName defaultConfig Samples.ctxCurrent = inr "app"
  /\ revisionKeyOf Samples.ctxCurrent = inr "current"
  /\ _key defaultConfig Samples.ctxCurrent = inr "app:current"
  /\ _currentKey defaultConfig Samples.ctxCurrent = inr "app:current".
Proof. repeat split. Qed.

(** C4 (amended): for a project name that passes validation and a revision
    key [r], explicit or derived from the hash, the derived row key equals the
    pointer key [<project>:current] exactly when [r] is the string [current];
    for every other [r] the two keys are distinct. *)
Theorem current_key_distinct_iff (cfg : Config) (context : Context) (r k ck : string) :
  revisionKeyOf context = inr r ->
  _key cfg context = inr k ->
  _currentKey cfg context = inr ck ->
  (k = ck <-> r = "current").
Proof.
  intros Hr Hk Hck.
  apply _key_inv in Hk as (p & r' & Hp & Hr' & ->).
  apply _currentKey_inv in Hck as (p' & Hp' & ->).
  assert (r' = r) as -> by congruence. assert (p' = p) as -> by congruence.
  split.
  - intros H. apply append_cancel_l in H. by injection H.
  - by intros ->.
Qed.

Lemma current_key_distinct_iff_witness :
  revisionKeyOf Samples.ctxAbc = inr "abc"
  /\ _key defaultConfig Samples.ctxAbc = inr "app:abc"
  /\ _currentKey defaultConfig Samples.ctxAbc = inr "app:current"
  /\ ("app:abc" = "app:current" <-> "abc" = "current").
Proof.
  split; [reflexivity|]. split; [reflexivity|]. split; [reflexivity|].
  apply (current_key_distinct_iff defaultConfig Samples.ctxAbc "abc" "app:abc" "app:current");
    reflexivity.
Defined.

(** C5, as stated, fails: the colon is allowed in project names, and the
    distinct pairs [(a, b:c)] and [(a:b, c)] derive the same key [a:b:c]. *)
Lemma _key_not_injective :
  _projectName defaultConfig Samples.ctxA = inr "a"
  /\ revisionKeyOf Samples.ctxA = inr "b:c"
  /\ _projectName defaultConfig Samples.ctxAB = inr "a:b"
  /\ revisionKeyOf Samples.ctxAB = inr "c"
  /\ ("a", "b:c") <> ("a:b", "c")
  /\ _key defaultConfig Samples.ctxA = _key defaultConfig Samples.ctxAB.
Proof. repeat split. done. Qed.

Lemma prefix_empty (s : string) : String.prefix "" s = true.
Proof. by destruct s. Qed.

(** A key [p:r] has a colon. *)
Lemma includes_colon_append (p r : string) : includes (p +:+ ":" +:+ r) ":" = true.
Proof.
  induction p as [|c p IH].
  - rewrite append_nil_l, append_cons. cbn [includes String.prefix].
    destruct (ascii_dec ":" ":"); [by rewrite prefix_empty|done].
  - rewrite append_cons. cbn [includes String.prefix].
    destruct (ascii_dec ":" c); [by rewrite prefix_empty|]. exact IH.
Qed.

(** Two keys [p1:r1] and [p2:r2] can only coincide for different pairs when
    one project name has a colon and the revision key of the other pair has
    one too. *)
Lemma split_no_overlap (p1 p2 r1 r2 : string) :
  includes p2 ":" = false \/ includes r1 ":" = false ->
  includes p1 ":" = false \/ includes r2 ":" = false ->
  p1 +:+ ":" +:+ r1 = p2 +:+ ":" +:+ r2 -> p1 = p2 /\ r1 = r2.
Proof.
  revert p2. induction p1 as [|c p1 IH]; intros [|d p2] H1 H2;
    rewrite ?append_nil_l, ?append_cons, ?append_nil_l.
  - by intros [= ->].
  - intros [= <- ->]. exfalso. destruct H1 as [H1|H1].
    + by apply includes_cons_colon in H1 as [? _].
    + pose proof (includes_colon_append p2 r2) as Hc.
      rewrite ?append_cons, ?append_nil_l in Hc. congruence.
  - intros [= -> <-]. exfalso. destruct H2 as [H2|H2].
    + by apply includes_cons_colon in H2 as [? _].
    + pose proof (includes_colon_append p1 r1) as Hc.
      rewrite ?append_cons, ?append_nil_l in Hc. congruence.
  - intros [= -> Heq].
    destruct (IH p2) as [-> ->]; [| |exact Heq|done].
    + destruct H1 as [H1|H1]; [left; by apply includes_cons_colon in H1 as [_ ?]|by right].
    + destruct H2 as [H2|H2]; [left; by apply includes_cons_colon in H2 as [_ ?]|by right].
Qed.

(** C5 (amended): [_key] is deterministic, the key being [p:r] for the
    validated project name [p] and the revision key [r]; and it is injective
    in the pair [(p, r)] whenever the two project names contain no colon or
    the two revision keys contain no colon (as hash-derived keys do), and
    also whenever the two project names are the same. *)
Theorem _key_injective (cfg1 cfg2 : Config) (context1 context2 : Context)
    (p1 r1 p2 r2 : string) :
  _projectName cfg1 context1 = inr p1 -> revisionKeyOf context1 = inr r1 ->
  _projectName cfg2 context2 = inr p2 -> revisionKeyOf context2 = inr r2 ->
  (p1 = p2 -> r1 = r2 -> _key cfg1 context1 = _key cfg2 context2)
  /\ (p1 = p2
      \/ (includes p1 ":" = false /\ includes p2 ":" = false)
      \/ (includes r1 ":" = false /\ includes r2 ":" = false) ->
      _key cfg1 context1 = _key cfg2 context2 -> p1 = p2 /\ r1 = r2).
Proof.
  intros Hp1 Hr1 Hp2 Hr2.
  rewrite (_key_eq _ _ _ _ Hp1 Hr1), (_key_eq _ _ _ _ Hp2 Hr2). split.
  - by intros -> ->.
  - intros [->|[[H1 H2]|[H1 H2]]] [= Heq].
    + split; [done|]. apply append_cancel_l in Heq. by injection Heq.
    + apply split_no_overlap; auto.
    + apply split_no_overlap; auto.
Qed.

Lemma _key_injective_witness :
  _projectName defaultConfig Samples.ctxAB = inr "a:b"
  /\ revisionKeyOf Samples.ctxAB = inr "c"
  /\ _projectName defaultConfig Samples.ctxACd = inr "a:c"
  /\ revisionKeyOf Samples.ctxACd = inr "d0e1f2a3"
  /\ (includes "c" ":" = false /\ includes "d0e1f2a3" ":" = false)
  /\ ("a:b" = "a:c" -> "c" = "d0e1f2a3" ->
      _key defaultConfig Samples.ctxAB = _key defaultConfig Samples.ctxACd)
  /\ ("a:b" = "a:c"
      \/ (includes "a:b" ":" = false /\ includes "a:c" ":" = false)
      \/ (includes "c" ":" = false /\ includes "d0e1f2a3" ":" = false) ->
      _key defaultConfig Samples.ctxAB = _key defaultConfig Samples.ctxACd ->
      "a:b" = "a:c" /\ "c" = "d0e1f2a3").
Proof.
  do 4 (split; [reflexivity|]). split; [split; reflexivity|].
  apply (_key_injective defaultConfig defaultConfig Samples.ctxAB Samples.ctxACd
           "a:b" "c" "a:c" "d0e1f2a3"); reflexivity.
Defined.

(** ** Sorting *)

Section SortFacts.
Context {A : Type} (compare : A -> A -> Z).

Lemma sort_insert_Permutation (a : A) (l : list A) : sort_insert compare a l ≡ₚ a :: l.
Proof.
  induction l as [|b l IH]; simpl; [done|].
  destruct (compare a b <=? 0); [done|].
  rewrite IH. apply Permutation_swap.
Qed.

Lemma sort_Permutation (l : list A) : sort compare l ≡ₚ l.
Proof.
  induction l as [|a l IH]; simpl; [done|].
  unfold sort in IH. by rewrite sort_insert_Permutation, IH.
Qed.
End SortFacts.

Lemma sort_insert_sorted (a : Entry) (l : list Entry) :
  StronglySorted entryNewestFirst l ->
  StronglySorted entryNewestFirst (sort_insert byTimestampDesc a l).
Proof.
  induction 1 as [|b l Hl IH Hb]; simpl.
  - repeat constructor.
  - unfold byTimestampDesc at 1. destruct (Z.leb_spec (Timestamp b - Timestamp a) 0).
    + constructor; [by constructor|].
      constructor; [unfold entryNewestFirst; lia|].
      eapply Forall_impl; [exact Hb|]. unfold entryNewestFirst. intros; lia.
    + constructor; [done|].
      rewrite sort_insert_Permutation. constructor; [|done].
      unfold entryNewestFirst; lia.
Qed.

Lemma sort_sorted (l : list Entry) :
  StronglySorted entryNewestFirst (sort byTimestampDesc l).
Proof.
  induction l as [|a l IH]; simpl; [constructor|]. by apply sort_insert_sorted.
Qed.

Lemma toRevision_sorted (current : Value) (l : list Entry) :
  StronglySorted newestFirst (toRevision current <$> sort byTimestampDesc l).
Proof.
  apply (StronglySorted_fmap _ entryNewestFirst); [|apply sort_sorted].
  intros x y H. exact H.
Qed.

(** ** The pagination loop, over any client *)

Section QueryFacts.
Context {St Token : Type}.
Variable client : TableService St Token.
Variable cfg : Config.

Lemma _query_step (fuel : nat) (token : option Token) (q : TableQuery)
    (acc : list Entry) (current : Value) (s : St) :
  _query client cfg (S fuel) token q acc current s =
    match queryEntities client (tableName cfg) q token s with
    | (s1, inl error) => (s1, Rejected (StoreFailure error))
    | (s1, inr result) =>
        match continuationToken result with
        | None => (s1, Resolved (toRevision current <$>
                                   sort byTimestampDesc (acc ++ entries result)))
        | Some next => _query client cfg fuel (Some next) q (acc ++ entries result) current s1
        end
    end.
Proof.
  simpl. unfold then_, call.
  destruct (queryEntities client (tableName cfg) q token s) as [s1 [error|result]]; [done|].
  by destruct (continuationToken result).
Qed.

Lemma _query_serves (q : TableQuery) (current : Value) token s pages s' :
  serves client (tableName cfg) q token s pages s' ->
  forall fuel acc, (length pages <= fuel)%nat ->
    _query client cfg fuel token q acc current s
      = (s', Resolved (toRevision current <$> sort byTimestampDesc (acc ++ concat pages))).
Proof.
  induction 1 as [token s s' p Hq|token s s1 s' p next ps Hq _ IH];
    intros [|fuel] acc Hfuel; simpl in Hfuel; try lia;
    rewrite _query_step, Hq; cbn [continuationToken entries concat].
  - by rewrite app_nil_r.
  - rewrite IH by lia. by rewrite <-app_assoc.
Qed.

(** With fewer fetches than pages the loop is still running: it never
    resolves with a truncated list. *)
Lemma _query_serves_short (q : TableQuery) (current : Value) token s pages s' :
  serves client (tableName cfg) q token s pages s' ->
  forall fuel acc, (fuel < length pages)%nat ->
    (_query client cfg fuel token q acc current s).2 = OutOfFuel.
Proof.
  induction 1 as [token s s' p Hq|token s s1 s' p next ps Hq _ IH];
    intros [|fuel] acc Hfuel; simpl in Hfuel; try lia; try done.
  rewrite _query_step, Hq; cbn [continuationToken entries]. apply IH. lia.
Qed.

Lemma _query_failsAfter (q : TableQuery) (current : Value) token s pages error s' :
  failsAfter client (tableName cfg) q token s pages error s' ->
  forall fuel acc, (length pages < fuel)%nat ->
    _query client cfg fuel token q acc current s = (s', Rejected (StoreFailure error)).
Proof.
  induction 1 as [token s s' error Hq|token s s1 s' p next ps error Hq _ IH];
    intros [|fuel] acc Hfuel; simpl in Hfuel; try lia;
    rewrite _query_step, Hq; cbn [continuationToken entries]; [done|].
  apply IH. lia.
Qed.

Lemma _query_sorted (q : TableQuery) (current : Value) fuel token acc s s' l :
  _query client cfg fuel token q acc current s = (s', Resolved l) ->
  StronglySorted newestFirst l.
Proof.
  revert token acc s. induction fuel as [|fuel IH]; intros token acc s; [done|].
  rewrite _query_step.
  destruct (queryEntities client (tableName cfg) q token s) as [s1 [error|result]]; [done|].
  destruct (continuationToken result) as [next|].
  - apply IH.
  - intros [= _ <-]. apply toRevision_sorted.
Qed.

Lemma _list_unfold (fuel : nat) (context : Context) (s s1 s2 : St) current ck :
  _current client cfg context s = (s1, Resolved current) ->
  createTableIfNotExists client (tableName cfg) s1 = (s2, inr tt) ->
  _currentKey cfg context = inr ck ->
  _list client cfg fuel context s
    = _query client cfg fuel None (rowQuery cfg OpNe ck) [] current s2.
Proof.
  intros Hc Ht Hk. unfold _list, then_, call, eval. by rewrite Hc, Ht, Hk.
Qed.

Lemma _list_inv (fuel : nat) (context : Context) (s s' : St) l :
  _list client cfg fuel context s = (s', Resolved l) ->
  exists s1 current s2 ck,
    _current client cfg context s = (s1, Resolved current)
    /\ createTableIfNotExists client (tableName cfg) s1 = (s2, inr tt)
    /\ _currentKey cfg context = inr ck
    /\ _query client cfg fuel None (rowQuery cfg OpNe ck) [] current s2 = (s', Resolved l).
Proof.
  unfold _list, then_, call, eval.
  destruct (_current client cfg context s) as [s1 [current| | | |]];
    try (intros H; discriminate H).
  destruct (createTableIfNotExists client (tableName cfg) s1) as [s2 [|[]]] eqn:Ht;
    [intros H; discriminate H|].
  destruct (_currentKey cfg context) as [|ck] eqn:Hk; [intros H; discriminate H|].
  intros H. by exists s1, current, s2, ck.
Qed.
End QueryFacts.

(** A list sorted most recent first that holds three entries of increasing
    timestamps holds them in reverse order. *)
Lemma sorted_three (l : list Revision) (r1 r2 r3 : Revision) :
  StronglySorted newestFirst l ->
  l ≡ₚ [r1; r2; r3] ->
  timestamp r1 < timestamp r2 < timestamp r3 ->
  l = [r3; r2; r1].
Proof.
  intros Hs Hp Ht.
  pose proof (Permutation_length Hp) as Hlen.
  destruct l as [|a [|b [|c [|d l]]]]; try discriminate Hlen.
  assert (a ∈ [r1; r2; r3]) as Ha by (rewrite <-Hp; rewrite !elem_of_cons; tauto).
  assert (b ∈ [r1; r2; r3]) as Hb by (rewrite <-Hp; rewrite !elem_of_cons; tauto).
  assert (c ∈ [r1; r2; r3]) as Hc by (rewrite <-Hp; rewrite !elem_of_cons; tauto).
  assert (r1 ∈ [a; b; c]) as H1 by (rewrite Hp; rewrite !elem_of_cons; tauto).
  assert (r2 ∈ [a; b; c]) as H2 by (rewrite Hp; rewrite !elem_of_cons; tauto).
  assert (r3 ∈ [a; b; c]) as H3 by (rewrite Hp; rewrite !elem_of_cons; tauto).
  apply StronglySorted_inv in Hs as [Hs Hab].
  apply StronglySorted_inv in Hs as [_ Hbc].
  apply Forall_cons in Hab as [Hab Hac]. apply Forall_cons in Hac as [Hac _].
  apply Forall_cons in Hbc as [Hbc _].
  unfold newestFirst in *.
  rewrite !elem_of_cons, elem_of_nil in Ha, Hb, Hc, H1, H2, H3.
  destruct Ha as [->|[->|[->|[]]]]; destruct Hb as [->|[->|[->|[]]]];
    destruct Hc as [->|[->|[->|[]]]]; try lia; try reflexivity;
    destruct H1 as [E1|[E1|[E1|[]]]]; destruct H2 as [E2|[E2|[E2|[]]]];
    destruct H3 as [E3|[E3|[E3|[]]]];
    apply (f_equal timestamp) in E1, E2, E3; lia.
Qed.

(** C7: when the responses to the listing query come in [n >= 1] pages
    linked by continuation tokens, the last one without a token, [_list]
    fetches all [n] pages (it ends in the state left by the last response) and
    resolves with the entries of all pages together, for any number of
    pages: the result is a permutation of the concatenated pages, each entry
    given with its row key as revision, its timestamp, and its active flag;
    so no entry is omitted and none is duplicated. *)
Theorem list_collects_all_pages {St Token : Type} (client : TableService St Token)
    (cfg : Config) (fuel : nat) (context : Context) (s s1 s2 s3 : St)
    (current : Value) (ck : string) (pages : list (list Entry)) :
  _current client cfg context s = (s1, Resolved current) ->
  createTableIfNotExists client (tableName cfg) s1 = (s2, inr tt) ->
  _currentKey cfg context = inr ck ->
  serves client (tableName cfg) (rowQuery cfg OpNe ck) None s2 pages s3 ->
  (length pages <= fuel)%nat ->
  exists l,
    _list client cfg fuel context s = (s3, Resolved l)
    /\ l ≡ₚ (fun e => {| revision := RowKey (entity e);
                         timestamp := Timestamp e;
                         active := match current with
                                   | VString c => String.eqb c (RowKey (entity e))
                                   | _ => false
                                   end |}) <$> concat pages
    /\ length l = length (concat pages)
    /\ (1 <= length pages)%nat.
Proof.
  intros Hc Ht Hk Hserves Hfuel.
  eexists. split; [|split; [|split]].
  - rewrite (_list_unfold _ _ _ _ _ _ _ _ _ Hc Ht Hk).
    by apply _query_serves.
  - rewrite sort_Permutation. cbn [app].
    rewrite (list_fmap_ext (toRevision current)
               (fun e => {| revision := RowKey (entity e);
                            timestamp := Timestamp e;
                            active := match current with
                                      | VString c => String.eqb c (RowKey (entity e))
                                      | _ => false
                                      end |})); [done|].
    intros i e _. unfold toRevision, strict_eq. by destruct current.
  - by rewrite length_fmap, sort_Permutation.
  - destruct Hserves; simpl; lia.
Qed.

(** C8: the sequence [_list] resolves with is sorted by timestamp, most
    recent first; in particular, when it holds three entries with timestamps
    [t1 < t2 < t3], they come in the order [t3, t2, t1]. *)
Theorem list_sorted_newest_first {St Token : Type} (client : TableService St Token)
    (cfg : Config) (fuel : nat) (context : Context) (s s' : St) (l : list Revision) :
  _list client cfg fuel context s = (s', Resolved l) ->
  StronglySorted newestFirst l
  /\ forall r1 r2 r3, l ≡ₚ [r1; r2; r3] ->
       timestamp r1 < timestamp r2 < timestamp r3 -> l = [r3; r2; r1].
Proof.
  intros H. apply _list_inv in H as (s1 & current & s2 & ck & _ & _ & _ & H).
  apply _query_sorted in H. split; [done|].
  intros r1 r2 r3. by apply sorted_three.
Qed.

(** C9: when, after any number of pages served with a continuation token,
    a page fetch fails with a store error, [_list] rejects with that error;
    the rejection carries none of the entries accumulated so far. *)
Theorem list_page_failure_rejects {St Token : Type} (client : TableService St Token)
    (cfg : Config) (fuel : nat) (context : Context) (s s1 s2 s3 : St)
    (current : Value) (ck : string) (pages : list (list Entry)) (error : StoreError) :
  _current client cfg context s = (s1, Resolved current) ->
  createTableIfNotExists client (tableName cfg) s1 = (s2, inr tt) ->
  _currentKey cfg context = inr ck ->
  failsAfter client (tableName cfg) (rowQuery cfg OpNe ck) None s2 pages error s3 ->
  (length pages < fuel)%nat ->
  _list client cfg fuel context s = (s3, Rejected (StoreFailure error)).
Proof.
  intros Hc Ht Hk Hfails Hfuel.
  rewrite (_list_unfold _ _ _ _ _ _ _ _ _ Hc Ht Hk).
  by apply (_query_failsAfter _ _ _ _ _ _ _ _ _ Hfails).
Qed.

(** ** The plugin over the in-memory store *)

Module MemStoreFacts.
Import MemStore.

Lemma guarded_nil {R : Type} (op : State -> State * (StoreError + R)) (s : State) :
  faults s = [] -> guarded op s = op s.
Proof. unfold guarded. by intros ->. Qed.

Lemma createTable_ensure (name : string) (s : State) :
  createTable name s = (ensure name s, inr tt).
Proof. unfold createTable, ensure. by destruct (tables s !! name). Qed.

Lemma faults_ensure (name : string) (s : State) : faults (ensure name s) = faults s.
Proof. unfold ensure. by destruct (tables s !! name). Qed.

Lemma pageLimit_ensure (name : string) (s : State) : pageLimit (ensure name s) = pageLimit s.
Proof. unfold ensure. by destruct (tables s !! name). Qed.

Lemma clock_ensure (name : string) (s : State) : clock (ensure name s) = clock s.
Proof. unfold ensure. by destruct (tables s !! name). Qed.

Lemma rowsOf_ensure (name n : string) (s : State) : rowsOf (ensure name s) n = rowsOf s n.
Proof.
  unfold ensure, rowsOf. destruct (tables s !! name) eqn:Hn; [done|]. simpl.
  destruct (decide (name = n)) as [<-|Hne].
  - by rewrite lookup_insert_eq, Hn.
  - by rewrite lookup_insert_ne.
Qed.

Lemma tables_ensure (name : string) (s : State) :
  tables (ensure name s) !! name = Some (rowsOf s name).
Proof.
  unfold ensure, rowsOf. destruct (tables s !! name) eqn:Hn; simpl; [done|].
  by rewrite lookup_insert_eq.
Qed.

Lemma ensure_idem (name : string) (s : State) : ensure name (ensure name s) = ensure name s.
Proof. unfold ensure at 1. by rewrite tables_ensure. Qed.

Lemma createTableIfNotExists_ok (name : string) (s : State) :
  faults s = [] ->
  createTableIfNotExists client name s = (ensure name s, inr tt).
Proof. intros Hf. simpl. rewrite guarded_nil by done. apply createTable_ensure. Qed.

Lemma queryEntities_ok (name : string) (q : TableQuery) (token : option nat) (s : State) t :
  faults s = [] -> tables s !! name = Some t ->
  queryEntities client name q token s = (s, inr (page (pageLimit s) token (select q t))).
Proof. intros Hf Ht. simpl. rewrite guarded_nil by done. unfold query. by rewrite Ht. Qed.

Lemma insertEntity_ok (name : string) (e : Entity) (s : State) t :
  faults s = [] -> tables s !! name = Some t -> t !! (PartitionKey e, RowKey e) = None ->
  insertEntity client name e s = (written name e s, inr tt).
Proof.
  intros Hf Ht He. simpl. rewrite guarded_nil by done.
  unfold insert_, written, rowsOf. by rewrite Ht, He.
Qed.

Lemma insertOrReplaceEntity_ok (name : string) (e : Entity) (s : State) t :
  faults s = [] -> tables s !! name = Some t ->
  insertOrReplaceEntity client name e s = (written name e s, inr tt).
Proof.
  intros Hf Ht. simpl. rewrite guarded_nil by done.
  unfold upsert, written, rowsOf. by rewrite Ht.
Qed.

Lemma rowsOf_written (name n : string) (e : Entity) (s : State) :
  rowsOf (written name e s) n =
    if decide (name = n)
    then <[(PartitionKey e, RowKey e) := mkRow s e]> (rowsOf s name)
    else rowsOf s n.
Proof.
  unfold written, rowsOf at 1. simpl. case_decide as Hn.
  - subst. by rewrite lookup_insert_eq.
  - by rewrite lookup_insert_ne.
Qed.

Lemma tables_written (name : string) (e : Entity) (s : State) :
  tables (written name e s) !! name = Some (rowsOf (written name e s) name).
Proof. unfold written, rowsOf. simpl. by rewrite lookup_insert_eq. Qed.

(** *** Point queries *)

Lemma matchesKey_rowQuery (cfg : Config) (op : Operator) (key : string) (k : string * string) :
  matchesKey (rowQuery cfg op key) k = true <->
  k.1 = manifestTag cfg /\
  match op with OpEq => k.2 = key | OpNe => k.2 <> key end.
Proof.
  unfold matchesKey, rowQuery, and_, where_, matchesClause. simpl.
  rewrite !andb_true_iff, String.eqb_eq.
  destruct op; simpl.
  - rewrite String.eqb_eq. tauto.
  - rewrite negb_true_iff, String.eqb_neq. tauto.
Qed.

Lemma select_eq (cfg : Config) (key : string) (t : gmap (string * string) Row) :
  select (rowQuery cfg OpEq key) t =
    match t !! (manifestTag cfg, key) with
    | Some row => [toEntry ((manifestTag cfg, key), row)]
    | None => []
    end.
Proof.
  unfold select.
  destruct (t !! (manifestTag cfg, key)) as [row|] eqn:Hrow.
  - replace (filter _ t) with ({[ (manifestTag cfg, key) := row ]} : gmap (string * string) Row).
    { by rewrite map_to_list_singleton. }
    apply map_eq. intros [pk rk]. apply option_eq. intros r.
    rewrite map_lookup_filter_Some, lookup_singleton_Some.
    rewrite matchesKey_rowQuery. cbn [fst snd]. split.
    + intros [[= <- <-] <-]. done.
    + intros [Hr [-> ->]]. split; congruence.
  - replace (filter _ t) with (∅ : gmap (string * string) Row).
    { by rewrite map_to_list_empty. }
    symmetry. apply map_empty. intros [pk rk]. apply map_lookup_filter_None. right.
    intros r Hr. rewrite matchesKey_rowQuery. cbn [fst snd]. intros [-> ->]. congruence.
Qed.

Lemma select_ne_insert (cfg : Config) (key : string) (row : Row)
    (t : gmap (string * string) Row) :
  select (rowQuery cfg OpNe key) (<[(manifestTag cfg, key) := row]> t)
    = select (rowQuery cfg OpNe key) t.
Proof.
  unfold select. rewrite map_filter_insert_not; [done|].
  intros y. rewrite matchesKey_rowQuery. intros [_ H]. by apply H.
Qed.

Lemma page_short (limit : nat) (all : list Entry) :
  (length all <= S limit)%nat ->
  page limit None all = {| entries := all; continuationToken := None |}.
Proof.
  intros H. unfold page. simpl default. rewrite drop_0, take_ge by done.
  destruct (Nat.ltb_spec (0 + S limit) (length all)); [lia|done].
Qed.

(** *** Reading the pointer and listing, when no fault is scheduled *)

Section Reads.
Variable cfg : Config.
Variable context : Context.
Variable ck : string.
Hypothesis Hck : _currentKey cfg context = inr ck.

Lemma _current_ok (s : State) :
  faults s = [] ->
  _current client cfg context s
    = (ensure (tableName cfg) s,
       Resolved (pointerValue (manifestTag cfg) ck (rowsOf s (tableName cfg)))).
Proof.
  intros Hf. unfold _current, then_, call, eval.
  rewrite createTableIfNotExists_ok, Hck by done.
  rewrite (queryEntities_ok _ _ _ _ (rowsOf s (tableName cfg)))
    by (by rewrite ?faults_ensure, ?tables_ensure).
  rewrite select_eq. unfold pointerValue.
  destruct (rowsOf s (tableName cfg) !! (manifestTag cfg, ck)) as [row|];
    rewrite page_short by (simpl; lia); done.
Qed.

Lemma fetchAll_Some (fuel limit : nat) (all : list Entry) :
  forall offset acc es,
    fetchAll fuel limit offset all acc = Some es -> es = acc ++ drop offset all.
Proof.
  induction fuel as [|fuel IH]; intros offset acc es; [done|]. simpl.
  destruct (Nat.ltb_spec (offset + S limit) (length all)) as [Hlt|Hge].
  - intros H. apply IH in H as ->.
    rewrite <-app_assoc. f_equal.
    rewrite <-(take_drop (S limit) (drop offset all)) at 2.
    by rewrite drop_drop.
  - intros [= <-]. f_equal. apply take_ge. rewrite length_drop. lia.
Qed.

Lemma fetchAll_enough (limit : nat) (all : list Entry) :
  forall fuel offset acc,
    (length all - offset < fuel)%nat ->
    fetchAll fuel limit offset all acc = Some (acc ++ drop offset all).
Proof.
  induction fuel as [|fuel IH]; intros offset acc Hfuel; [lia|].
  destruct (fetchAll (S fuel) limit offset all acc) as [es|] eqn:H.
  - by apply fetchAll_Some in H as ->.
  - simpl in H.
    destruct (Nat.ltb_spec (offset + S limit) (length all)) as [Hlt|Hge]; [|done].
    rewrite IH in H by lia. done.
Qed.

Lemma _query_fetchAll (q : TableQuery) (current : Value) (s : State) t :
  faults s = [] -> tables s !! tableName cfg = Some t ->
  forall fuel token acc,
    _query client cfg fuel token q acc current s
      = (s, match fetchAll fuel (pageLimit s) (default 0%nat token) (select q t) acc with
            | Some es => Resolved (toRevision current <$> sort byTimestampDesc es)
            | None => OutOfFuel
            end).
Proof.
  intros Hf Ht. induction fuel as [|fuel IH]; intros token acc; [done|].
  rewrite _query_step, (queryEntities_ok _ _ _ _ t) by done.
  unfold page. cbn [continuationToken entries fetchAll].
  destruct (Nat.ltb_spec (default 0%nat token + S (pageLimit s)) (length (select q t)));
    [|done].
  by rewrite IH.
Qed.

Lemma _list_ok (fuel : nat) (s : State) :
  faults s = [] ->
  _list client cfg fuel context s
    = (ensure (tableName cfg) s,
       match fetchAll fuel (pageLimit s) 0 (listed cfg ck s) [] with
       | Some es =>
           Resolved (toRevision (pointerValue (manifestTag cfg) ck (rowsOf s (tableName cfg)))
                       <$> sort byTimestampDesc es)
       | None => OutOfFuel
       end).
Proof.
  intros Hf.
  rewrite (_list_unfold client cfg fuel context s
             (ensure (tableName cfg) s) (ensure (tableName cfg) s)
             (pointerValue (manifestTag cfg) ck (rowsOf s (tableName cfg))) ck).
  - rewrite (_query_fetchAll _ _ _ (rowsOf s (tableName cfg)))
      by (by rewrite ?faults_ensure, ?tables_ensure).
    by rewrite pageLimit_ensure.
  - by apply _current_ok.
  - rewrite createTableIfNotExists_ok by (by rewrite faults_ensure).
    by rewrite ensure_idem.
  - done.
Qed.
(** With more fuel than rows, the listing resolves with all selected rows. *)
Lemma _list_resolves (fuel : nat) (s : State) :
  faults s = [] ->
  (length (listed cfg ck s) < fuel)%nat ->
  _list client cfg fuel context s
    = (ensure (tableName cfg) s,
       Resolved (toRevision (pointerValue (manifestTag cfg) ck (rowsOf s (tableName cfg)))
                   <$> sort byTimestampDesc (listed cfg ck s))).
Proof.
  intros Hf Hfuel. rewrite _list_ok by done.
  rewrite fetchAll_enough by lia. by rewrite drop_0, app_nil_l.
Qed.
End Reads.

(** *** Reads leave every row in place, whatever faults are scheduled *)

Lemma rowsOf_withFaults (s : State) f (n : string) : rowsOf (withFaults s f) n = rowsOf s n.
Proof. done. Qed.

Lemma guarded_rows {R : Type} (op : State -> State * (StoreError + R)) :
  (forall s n, rowsOf (op s).1 n = rowsOf s n) ->
  forall s n, rowsOf (guarded op s).1 n = rowsOf s n.
Proof.
  intros Hop s n. unfold guarded. destruct (faults s) as [|[error|] rest]; simpl.
  - apply Hop.
  - done.
  - by rewrite Hop.
Qed.

Lemma createTableIfNotExists_rows (name : string) (s : State) (n : string) :
  rowsOf (createTableIfNotExists client name s).1 n = rowsOf s n.
Proof.
  apply (guarded_rows (createTable name)). clear. intros s n.
  rewrite createTable_ensure. apply rowsOf_ensure.
Qed.

Lemma queryEntities_rows (name : string) (q : TableQuery) token (s : State) (n : string) :
  rowsOf (queryEntities client name q token s).1 n = rowsOf s n.
Proof.
  apply (guarded_rows (query name q token)). clear. intros s n.
  unfold query. by destruct (tables s !! name).
Qed.

Lemma _current_rows (cfg : Config) (context : Context) (s : State) (n : string) :
  rowsOf (_current client cfg context s).1 n = rowsOf s n.
Proof.
  unfold _current, then_, call, eval.
  pose proof (createTableIfNotExists_rows (tableName cfg) s n) as H1.
  destruct (createTableIfNotExists client (tableName cfg) s) as [s1 [error|[]]]; [done|].
  destruct (_currentKey cfg context) as [e|ck]; [done|].
  pose proof (queryEntities_rows (tableName cfg) (rowQuery cfg OpEq ck) None s1 n) as H2.
  destruct (queryEntities client (tableName cfg) (rowQuery cfg OpEq ck) None s1)
    as [s2 [error|result]]; simpl in *; [congruence|].
  destruct (entries result); simpl; congruence.
Qed.

(** *** Writes *)

Lemma faults_written (name : string) (e : Entity) (s : State) :
  faults (written name e s) = faults s.
Proof. done. Qed.

Lemma pageLimit_written (name : string) (e : Entity) (s : State) :
  pageLimit (written name e s) = pageLimit s.
Proof. done. Qed.

Lemma ensure_written (name : string) (e : Entity) (s : State) :
  ensure name (written name e s) = written name e s.
Proof. unfold ensure. by rewrite tables_written. Qed.

Lemma rowsOf_written_ensure (name : string) (e : Entity) (s : State) :
  rowsOf (written name e (ensure name s)) name
    = <[(PartitionKey e, RowKey e) :=
          {| rowContent := content e; rowCompression := compression e;
             rowTimestamp := clock s |}]> (rowsOf s name).
Proof.
  rewrite rowsOf_written, decide_True by done.
  unfold mkRow. by rewrite clock_ensure, rowsOf_ensure.
Qed.

Lemma rowsOf_written_other (name n : string) (e : Entity) (s : State) :
  name <> n -> rowsOf (written name e (ensure name s)) n = rowsOf s n.
Proof. intros Hn. rewrite rowsOf_written, decide_False by done. apply rowsOf_ensure. Qed.

(** *** What a listing holds *)

Lemma select_Forall (q : TableQuery) (t : gmap (string * string) Row) :
  Forall (fun e => matchesKey q (PartitionKey (entity e), RowKey (entity e)) = true)
         (select q t).
Proof.
  unfold select. apply Forall_fmap, Forall_forall. intros [[pk rk] row] Hin.
  apply elem_of_map_to_list in Hin. by apply map_lookup_filter_Some in Hin as [_ H].
Qed.

Lemma select_NoDup_rowKey (cfg : Config) (op : Operator) (key : string)
    (t : gmap (string * string) Row) :
  NoDup ((fun e => RowKey (entity e)) <$> select (rowQuery cfg op key) t).
Proof.
  unfold select. rewrite <-list_fmap_compose.
  set (m := filter _ t).
  assert (forall kr, kr ∈ map_to_list m -> kr.1.1 = manifestTag cfg) as Htag.
  { intros [[pk rk] row] Hin. apply elem_of_map_to_list in Hin.
    apply map_lookup_filter_Some in Hin as [_ H].
    by apply matchesKey_rowQuery in H as [H _]. }
  pose proof (NoDup_fst_map_to_list m) as Hnd.
  induction (map_to_list m) as [|kr l IH]; [constructor|].
  rewrite fmap_cons in *. apply NoDup_cons in Hnd as [Hkr Hnd].
  apply NoDup_cons. split.
  - intros Hin. apply Hkr.
    apply list_elem_of_fmap in Hin as (kr' & Heq & Hin').
    apply list_elem_of_fmap. exists kr'. split; [|done].
    pose proof (Htag kr (list_elem_of_here _ _)) as H1.
    pose proof (Htag kr' (list_elem_of_further _ _ _ Hin')) as H2.
    destruct kr as [[pk rk] row], kr' as [[pk' rk'] row']. simpl in *. congruence.
  - apply IH; [|done]. intros kr' Hin. apply Htag. by apply list_elem_of_further.
Qed.

(** Whatever faults are scheduled, what [_query] resolves with was
    selected by the query. *)
Lemma _query_selected (cfg : Config) (q : TableQuery) (current : Value) :
  forall fuel token acc s s' l,
    _query client cfg fuel token q acc current s = (s', Resolved l) ->
    Forall (fun e => matchesKey q (PartitionKey (entity e), RowKey (entity e)) = true) acc ->
    Forall (fun r => exists pk, matchesKey q (pk, revision r) = true) l.
Proof.
  induction fuel as [|fuel IH]; intros token acc s s' l; [done|].
  rewrite _query_step. intros H Hacc.
  assert (forall s1 result,
    queryEntities client (tableName cfg) q token s = (s1, inr result) ->
    Forall (fun e => matchesKey q (PartitionKey (entity e), RowKey (entity e)) = true)
           (acc ++ entries result)) as Hpage.
  { intros s1 result. simpl. unfold guarded, query.
    destruct (faults s) as [|[error|] rest]; simpl;
      try (destruct (tables s !! tableName cfg) as [t|]);
      intros [= _ <-]; apply Forall_app; (split; [done|]);
      apply Forall_take, Forall_drop, select_Forall. }
  destruct (queryEntities client (tableName cfg) q token s) as [s1 [error|result]]; [done|].
  specialize (Hpage s1 result eq_refl).
  destruct (continuationToken result) as [next|].
  - by eapply IH.
  - injection H as _ <-. apply Forall_fmap.
    rewrite sort_Permutation. eapply Forall_impl; [exact Hpage|].
    intros e He. by exists (PartitionKey (entity e)).
Qed.

(** *** Activation, when no fault is scheduled *)

Section Activation.
Variable cfg : Config.
Variable context : Context.
Variables k ck : string.
Hypothesis Hk : _key cfg context = inr k.
Hypothesis Hck : _currentKey cfg context = inr ck.

(** The state that the upsert of [activate] leaves. *)
Let activated (s : State) : State :=
  written (tableName cfg) (pointerEntity cfg ck k) (ensure (tableName cfg) s).

Lemma activate_ok (fuel : nat) (s s0 : State) (l : list Revision) :
  faults s = [] ->
  _list client cfg fuel context s = (s0, Resolved l) ->
  activate client cfg fuel context s
    = (activated s,
       if existsb (fun entry => String.eqb (revision entry) k) l
       then Resolved (setActivatedRevisionKey context k)
       else Rejected (Message (notInManifestMessage k))).
Proof.
  intros Hf Hl. unfold activate. rewrite Hk.
  destruct (_currentKey_inv _ _ _ Hck) as (p & Hp & ->). rewrite Hp, Hl.
  assert (s0 = ensure (tableName cfg) s) as ->.
  { rewrite (_list_ok cfg context _ Hck) in Hl by done. congruence. }
  rewrite (insertOrReplaceEntity_ok _ _ _ (rowsOf s (tableName cfg)))
    by (by rewrite ?faults_ensure, ?tables_ensure).
  by destruct (existsb _ l).
Qed.

Lemma pointer_activated (s : State) :
  pointerValue (manifestTag cfg) ck (rowsOf (activated s) (tableName cfg)) = VString k.
Proof.
  unfold activated, pointerValue. rewrite rowsOf_written_ensure.
  cbn [pointerEntity PartitionKey RowKey content]. by rewrite lookup_insert_eq.
Qed.

Lemma listed_activated (s : State) : listed cfg ck (activated s) = listed cfg ck s.
Proof.
  unfold listed, activated. rewrite rowsOf_written_ensure.
  cbn [pointerEntity PartitionKey RowKey]. apply select_ne_insert.
Qed.

Lemma _current_activated (s : State) :
  faults s = [] ->
  _current client cfg context (activated s) = (activated s, Resolved (VString k)).
Proof.
  intros Hf. rewrite (_current_ok cfg context ck Hck)
    by (unfold activated; by rewrite faults_written, faults_ensure).
  rewrite pointer_activated. unfold activated. by rewrite ensure_written.
Qed.

Lemma _list_activated (fuel : nat) (s s0 : State) (l : list Revision) :
  faults s = [] ->
  _list client cfg fuel context s = (s0, Resolved l) ->
  _list client cfg fuel context (activated s)
    = (activated s,
       Resolved (toRevision (VString k) <$> sort byTimestampDesc (listed cfg ck s)))
  /\ revision <$> l
     = (fun e => RowKey (entity e)) <$> sort byTimestampDesc (listed cfg ck s).
Proof.
  intros Hf Hl. rewrite (_list_ok cfg context ck Hck) in Hl by done.
  rewrite (_list_ok cfg context ck Hck)
    by (unfold activated; by rewrite faults_written, faults_ensure).
  rewrite listed_activated, pointer_activated.
  replace (pageLimit (activated s)) with (pageLimit s)
    by (unfold activated; by rewrite pageLimit_written, pageLimit_ensure).
  replace (ensure (tableName cfg) (activated s)) with (activated s)
    by (unfold activated; by rewrite ensure_written).
  destruct (fetchAll fuel (pageLimit s) 0 (listed cfg ck s) []) as [es|] eqn:Hes;
    [|discriminate Hl].
  apply fetchAll_Some in Hes. rewrite drop_0, app_nil_l in Hes. subst es.
  split; [done|]. injection Hl as _ <-. by rewrite <-list_fmap_compose.
Qed.
End Activation.

Lemma count_NoDup {A B : Type} `{EqDecision B} (f : A -> B) (b : B) (l : list A) :
  NoDup (f <$> l) -> b ∈ f <$> l -> length (filter (fun a => f a = b) l) = 1%nat.
Proof.
  induction l as [|a l IH]; simpl.
  - intros _ H. by apply elem_of_nil in H.
  - rewrite NoDup_cons, elem_of_cons. intros [Ha Hnd] Hin.
    rewrite filter_cons. case_decide as Hfa.
    + simpl. f_equal.
      destruct (filter (fun a => f a = b) l) as [|a' l'] eqn:Hfl; [done|]. exfalso.
      assert (a' ∈ filter (fun a => f a = b) l) as Hin' by (rewrite Hfl; left).
      apply list_elem_of_filter in Hin' as [Heq Hin']. apply Ha. rewrite Hfa, <-Heq.
      apply list_elem_of_fmap. eauto.
    + destruct Hin as [->|Hin]; [done|]. by apply IH.
Qed.

Lemma existsb_revision (k : string) (l : list Revision) :
  existsb (fun entry => String.eqb (revision entry) k) l = true <-> k ∈ revision <$> l.
Proof.
  rewrite existsb_exists, list_elem_of_fmap. split.
  - intros (r & Hin & Heq). exists r. apply String.eqb_eq in Heq.
    split; [done|]. by apply list_elem_of_In.
  - intros (r & -> & Hin). exists r. split; [by apply list_elem_of_In|].
    apply String.eqb_refl.
Qed.
End MemStoreFacts.

(** C10: [willActivate] writes no row, whatever the store answers; and when
    the store serves its calls, it resolves after setting
    [context.revisionData.previousRevisionKey] to the content of the pointer
    row if that row exists and to [null] otherwise, on the existing
    [revisionData] record or on a new one. *)
Theorem willActivate_records_previous (cfg : Config) (context : Context) (ck : string)
    (s : MemStore.State) :
  _currentKey cfg context = inr ck ->
  (forall name,
     MemStore.rowsOf (willActivate MemStore.client cfg context s).1 name = MemStore.rowsOf s name)
  /\ (MemStore.faults s = [] ->
      exists s' context' rd,
        willActivate MemStore.client cfg context s = (s', Resolved context')
        /\ revisionData context' = Some rd
        /\ previousRevisionKey rd =
             Some (match MemStore.rowsOf s (tableName cfg) !! (manifestTag cfg, ck) with
                   | Some row => MemStore.rowContent row
                   | None => VNull
                   end)
        /\ revisionKey rd = revisionKey (default emptyRevisionData (revisionData context))
        /\ activatedRevisionKey rd
             = activatedRevisionKey (default emptyRevisionData (revisionData context))
        /\ commandOptions_revision context' = commandOptions_revision context
        /\ project_name context' = project_name context
        /\ distDir context' = distDir context).
Proof.
  intros Hck. split.
  - intros name. unfold willActivate, then_, AsyncMonad.resolve.
    pose proof (MemStoreFacts._current_rows cfg context s name) as H.
    by destruct (_current MemStore.client cfg context s) as [s1 [current| | | |]].
  - intros Hf. unfold willActivate, then_, AsyncMonad.resolve.
    rewrite (MemStoreFacts._current_ok cfg context ck Hck s Hf).
    eexists _, _, _. repeat split.
Qed.

(** C3: when the store serves its calls and [index.html] can be read,
    [upload] of the derived row key [k] is rejected with the duplicate-key
    message and leaves every row as it was if the manifest partition already
    has a row [k]; otherwise it resolves, having created exactly one row, at
    [k], whose content is the payload.  Either way the partition then holds
    exactly one entity with row key [k]. *)
Theorem upload_at_most_once (gzipSync : string -> list Byte.byte)
    (readFile : string -> FileError + string) (path_join : string -> string -> string)
    (cfg : Config) (context : Context) (k buffer : string) (s : MemStore.State) :
  MemStore.faults s = [] ->
  _key cfg context = inr k ->
  readFile (path_join (distDir context) "index.html") = inr buffer ->
  let t := MemStore.rowsOf s (tableName cfg) in
  let run := upload MemStore.client gzipSync readFile path_join cfg context s in
  (is_Some (t !! (manifestTag cfg, k)) ->
     run.2 = Rejected (Message duplicateMessage)
     /\ (forall name, MemStore.rowsOf run.1 name = MemStore.rowsOf s name))
  /\ (t !! (manifestTag cfg, k) = None ->
      run.2 = Resolved tt
      /\ MemStore.rowsOf run.1 (tableName cfg)
         = <[(manifestTag cfg, k) :=
               {| MemStore.rowContent :=
                    if compressIndex cfg then VBinary (gzipSync buffer) else VString buffer;
                  MemStore.rowCompression := if compressIndex cfg then Some "gzip" else None;
                  MemStore.rowTimestamp := MemStore.clock s |}]> t
      /\ size (MemStore.rowsOf run.1 (tableName cfg)) = S (size t)
      /\ (forall name, name <> tableName cfg ->
            MemStore.rowsOf run.1 name = MemStore.rowsOf s name))
  /\ length (MemStore.select (rowQuery cfg OpEq k) (MemStore.rowsOf run.1 (tableName cfg))) = 1%nat.
Proof.
  intros Hf Hk Hfile t run.
  assert (run =
    match t !! (manifestTag cfg, k) with
    | Some _ => (MemStore.ensure (tableName cfg) s, Rejected (Message duplicateMessage))
    | None =>
        (MemStore.written (tableName cfg)
           {| PartitionKey := manifestTag cfg; RowKey := k;
              content := if compressIndex cfg then VBinary (gzipSync buffer) else VString buffer;
              compression := if compressIndex cfg then Some "gzip" else None |}
           (MemStore.ensure (tableName cfg) s), Resolved tt)
    end) as Hrun.
  { unfold run, upload. rewrite Hk, Hfile. unfold then_, call, reject.
    rewrite MemStoreFacts.createTableIfNotExists_ok by done.
    rewrite (MemStoreFacts.queryEntities_ok _ _ _ _ t)
      by (by rewrite ?MemStoreFacts.faults_ensure, ?MemStoreFacts.tables_ensure).
    rewrite MemStoreFacts.select_eq.
    destruct (t !! (manifestTag cfg, k)) as [row|] eqn:Hrow;
      rewrite MemStoreFacts.page_short by (simpl; lia); cbn [entries length Nat.ltb Nat.leb].
    - done.
    - rewrite (MemStoreFacts.insertEntity_ok _ _ _ t);
        rewrite ?MemStoreFacts.faults_ensure, ?MemStoreFacts.tables_ensure; done. }
  clearbody run. subst run.
  destruct (t !! (manifestTag cfg, k)) as [row|] eqn:Hrow; cbn [fst snd].
  - split; [|split].
    + intros _. split; [done|]. intros name. apply MemStoreFacts.rowsOf_ensure.
    + done.
    + rewrite MemStoreFacts.rowsOf_ensure, MemStoreFacts.select_eq. fold t. by rewrite Hrow.
  - rewrite MemStoreFacts.rowsOf_written_ensure. cbn [PartitionKey RowKey content compression].
    fold t. split; [|split].
    + by intros [? ?].
    + intros _. split; [done|]. split; [done|]. split.
      * by apply map_size_insert_None.
      * intros name Hname. by apply MemStoreFacts.rowsOf_written_other.
    + by rewrite MemStoreFacts.select_eq, lookup_insert_eq.
Qed.

(** C6: whatever the state of the store, and so also after any activation,
    no entry of the sequence [_list] resolves with has the reserved pointer
    key [<project>:current] as its revision. *)
Theorem list_excludes_pointer (cfg : Config) (context : Context) (ck : string) (fuel : nat)
    (s s' : MemStore.State) (l : list Revision) :
  _currentKey cfg context = inr ck ->
  _list MemStore.client cfg fuel context s = (s', Resolved l) ->
  Forall (fun r => revision r <> ck) l.
Proof.
  intros Hck H.
  apply _list_inv in H as (s1 & current & s2 & ck' & _ & _ & Hck' & H).
  assert (ck' = ck) as -> by congruence.
  apply MemStoreFacts._query_selected in H; [|constructor].
  eapply Forall_impl; [exact H|].
  intros r [pk Hr]. by apply MemStoreFacts.matchesKey_rowQuery in Hr as [_ Hr].
Qed.

(** C2: when the derived revision key [k] is among the listed revisions and
    the store serves its calls, [activate] resolves; in the state it leaves,
    [_current] resolves with [k], and [_list] resolves with a sequence in
    which an entry is marked active exactly if its revision is [k], exactly
    one entry having that revision. *)
Theorem activate_listed_revision (cfg : Config) (context : Context) (fuel : nat)
    (k : string) (s s0 : MemStore.State) (l : list Revision) :
  MemStore.faults s = [] ->
  _key cfg context = inr k ->
  _list MemStore.client cfg fuel context s = (s0, Resolved l) ->
  k ∈ revision <$> l ->
  exists s1 l',
    activate MemStore.client cfg fuel context s
      = (s1, Resolved (setActivatedRevisionKey context k))
    /\ _current MemStore.client cfg context s1 = (s1, Resolved (VString k))
    /\ _list MemStore.client cfg fuel context s1 = (s1, Resolved l')
    /\ (forall r, r ∈ l' -> (active r = true <-> revision r = k))
    /\ length (filter (fun r => revision r = k) l') = 1%nat.
Proof.
  intros Hf Hk Hl Hin.
  destruct (_key_inv _ _ _ Hk) as (p & r & Hp & _ & _).
  pose proof (_currentKey_eq _ _ _ Hp) as Hck.
  destruct (MemStoreFacts._list_activated cfg context k _ Hck fuel s s0 l Hf Hl) as [Hl' Hrev].
  eexists _, _. split; [|split; [|split; [exact Hl'|split]]].
  - rewrite (MemStoreFacts.activate_ok cfg context k _ Hk Hck fuel s s0 l Hf Hl).
    by rewrite (proj2 (MemStoreFacts.existsb_revision k l) Hin).
  - by apply MemStoreFacts._current_activated.
  - intros r' Hr'. apply list_elem_of_fmap in Hr' as (e & -> & _).
    unfold toRevision. cbn [active revision strict_eq].
    rewrite String.eqb_eq. split; congruence.
  - apply MemStoreFacts.count_NoDup.
    + rewrite <-list_fmap_compose. unfold compose. cbn [toRevision revision].
      rewrite sort_Permutation. apply MemStoreFacts.select_NoDup_rowKey.
    + rewrite <-list_fmap_compose. unfold compose. cbn [toRevision revision].
      by rewrite <-Hrev.
Qed.

(** When the derived key is not among the listed revisions and the store
    serves its calls, [activate] rejects with the not-in-manifest message,
    and the pointer row then holds that key all the same. *)
Lemma activate_unlisted_writes_pointer (cfg : Config) (context : Context) (fuel : nat)
    (k ck : string) (s s0 : MemStore.State) (l : list Revision) :
  MemStore.faults s = [] ->
  _key cfg context = inr k ->
  _currentKey cfg context = inr ck ->
  _list MemStore.client cfg fuel context s = (s0, Resolved l) ->
  k ∉ revision <$> l ->
  exists s1,
    activate MemStore.client cfg fuel context s
      = (s1, Rejected (Message (notInManifestMessage k)))
    /\ MemStore.pointerValue (manifestTag cfg) ck (MemStore.rowsOf s1 (tableName cfg))
       = VString k.
Proof.
  intros Hf Hk Hck Hl Hin. eexists. split.
  - rewrite (MemStoreFacts.activate_ok cfg context k ck Hk Hck fuel s s0 l Hf Hl).
    destruct (existsb _ l) eqn:He; [|done].
    by apply MemStoreFacts.existsb_revision in He.
  - by apply MemStoreFacts.pointer_activated.
Qed.

(** ** The properties at sample inputs *)

(** C1: in a store that lists [app:abc], [app:def45678] and [app:ghi] and
    whose pointer is [app:abc], activating the unlisted [app:zzz] is
    rejected with the not-in-manifest message, and yet the pointer row is
    overwritten: it holds [app:zzz] afterwards, and [_current] resolves
    with it. *)
Theorem activate_rejected_yet_written :
  let run := activate MemStore.client defaultConfig 5 Samples.ctxZzz Samples.store3active in
  _key defaultConfig Samples.ctxZzz = inr "app:zzz"
  /\ (_list MemStore.client defaultConfig 5 Samples.ctxZzz Samples.store3active).2
     = Resolved (Samples.listing3 true)
  /\ MemStore.rowsOf Samples.store3active "emberdeploy" !! ("manifest", "app:current")
     = Some {| MemStore.rowContent := VString "app:abc"; MemStore.rowCompression := None;
               MemStore.rowTimestamp := 3 |}
  /\ run.2 = Rejected (Message "Revision app:zzz not in manifest")
  /\ MemStore.rowsOf run.1 "emberdeploy" !! ("manifest", "app:current")
     = Some {| MemStore.rowContent := VString "app:zzz"; MemStore.rowCompression := None;
               MemStore.rowTimestamp := 4 |}
  /\ (_current MemStore.client defaultConfig Samples.ctxZzz run.1).2
     = Resolved (VString "app:zzz").
Proof. vm_compute. repeat split. Qed.

Lemma activate_listed_revision_witness :
  MemStore.faults Samples.store3 = []
  /\ _key defaultConfig Samples.ctxAbc = inr "app:abc"
  /\ _list MemStore.client defaultConfig 5 Samples.ctxAbc Samples.store3
     = (Samples.store3, Resolved (Samples.listing3 false))
  /\ "app:abc" ∈ revision <$> Samples.listing3 false
  /\ exists s1 l',
      activate MemStore.client defaultConfig 5 Samples.ctxAbc Samples.store3
        = (s1, Resolved (setActivatedRevisionKey Samples.ctxAbc "app:abc"))
      /\ _current MemStore.client defaultConfig Samples.ctxAbc s1 = (s1, Resolved (VString "app:abc"))
      /\ _list MemStore.client defaultConfig 5 Samples.ctxAbc s1 = (s1, Resolved l')
      /\ (forall r, r ∈ l' -> (active r = true <-> revision r = "app:abc"))
      /\ length (filter (fun r => revision r = "app:abc") l') = 1%nat.
Proof.
  assert (MemStore.faults Samples.store3 = []) as H1 by (vm_compute; reflexivity).
  assert (_key defaultConfig Samples.ctxAbc = inr "app:abc") as H2 by reflexivity.
  assert (_list MemStore.client defaultConfig 5 Samples.ctxAbc Samples.store3
          = (Samples.store3, Resolved (Samples.listing3 false))) as H3
    by (vm_compute; reflexivity).
  assert ("app:abc" ∈ revision <$> Samples.listing3 false) as H4
    by (simpl; repeat constructor).
  do 4 (split; [assumption|]).
  exact (activate_listed_revision defaultConfig Samples.ctxAbc 5 "app:abc"
           Samples.store3 Samples.store3 (Samples.listing3 false) H1 H2 H3 H4).
Defined.

Lemma upload_at_most_once_witness :
  MemStore.faults Samples.store1 = []
  /\ _key defaultConfig Samples.ctxDef = inr "app:def45678"
  /\ Samples.readFile (Samples.path_join (distDir Samples.ctxDef) "index.html")
     = inr "<html></html>"
  /\ MemStore.rowsOf Samples.store1 (tableName defaultConfig)
       !! (manifestTag defaultConfig, "app:def45678") = None
  /\ (let t := MemStore.rowsOf Samples.store1 (tableName defaultConfig) in
      let run := upload MemStore.client Samples.gzipSync Samples.readFile Samples.path_join
                   defaultConfig Samples.ctxDef Samples.store1 in
      (is_Some (t !! (manifestTag defaultConfig, "app:def45678")) ->
         run.2 = Rejected (Message duplicateMessage)
         /\ (forall name, MemStore.rowsOf run.1 name = MemStore.rowsOf Samples.store1 name))
      /\ (t !! (manifestTag defaultConfig, "app:def45678") = None ->
          run.2 = Resolved tt
          /\ MemStore.rowsOf run.1 (tableName defaultConfig)
             = <[(manifestTag defaultConfig, "app:def45678") :=
                   {| MemStore.rowContent :=
                        if compressIndex defaultConfig
                        then VBinary (Samples.gzipSync "<html></html>")
                        else VString "<html></html>";
                      MemStore.rowCompression :=
                        if compressIndex defaultConfig then Some "gzip" else None;
                      MemStore.rowTimestamp := MemStore.clock Samples.store1 |}]> t
          /\ size (MemStore.rowsOf run.1 (tableName defaultConfig)) = S (size t)
          /\ (forall name, name <> tableName defaultConfig ->
                MemStore.rowsOf run.1 name = MemStore.rowsOf Samples.store1 name))
      /\ length (MemStore.select (rowQuery defaultConfig OpEq "app:def45678")
                   (MemStore.rowsOf run.1 (tableName defaultConfig))) = 1%nat).
Proof.
  assert (MemStore.faults Samples.store1 = []) as H1 by (vm_compute; reflexivity).
  assert (_key defaultConfig Samples.ctxDef = inr "app:def45678") as H2 by reflexivity.
  assert (Samples.readFile (Samples.path_join (distDir Samples.ctxDef) "index.html")
          = inr "<html></html>") as H3 by reflexivity.
  do 3 (split; [assumption|]). split; [vm_compute; reflexivity|].
  exact (upload_at_most_once Samples.gzipSync Samples.readFile Samples.path_join
           defaultConfig Samples.ctxDef "app:def45678" "<html></html>" Samples.store1
           H1 H2 H3).
Defined.

(** Uploading [app:abc] a second time is rejected. *)
Example upload_twice_rejected :
  (upload MemStore.client Samples.gzipSync Samples.readFile Samples.path_join
     defaultConfig Samples.ctxAbc Samples.store1).2
  = Rejected (Message "Key already in manifest - revision already uploaded or collided.").
Proof. vm_compute. reflexivity. Qed.

Lemma list_excludes_pointer_witness :
  _currentKey defaultConfig Samples.ctxAbc = inr "app:current"
  /\ _list MemStore.client defaultConfig 5 Samples.ctxAbc Samples.store3active
     = (Samples.store3active, Resolved (Samples.listing3 true))
  /\ Forall (fun r => revision r <> "app:current") (Samples.listing3 true).
Proof.
  assert (_currentKey defaultConfig Samples.ctxAbc = inr "app:current") as H1 by reflexivity.
  assert (_list MemStore.client defaultConfig 5 Samples.ctxAbc Samples.store3active
          = (Samples.store3active, Resolved (Samples.listing3 true))) as H2
    by (vm_compute; reflexivity).
  do 2 (split; [assumption|]).
  exact (list_excludes_pointer defaultConfig Samples.ctxAbc "app:current" 5
           Samples.store3active Samples.store3active (Samples.listing3 true) H1 H2).
Defined.

Lemma list_collects_all_pages_witness :
  _current MemStore.client defaultConfig Samples.ctxGhi Samples.store3active
    = (Samples.store3active, Resolved (VString "app:abc"))
  /\ createTableIfNotExists MemStore.client (tableName defaultConfig) Samples.store3active
     = (Samples.store3active, inr tt)
  /\ _currentKey defaultConfig Samples.ctxGhi = inr "app:current"
  /\ serves MemStore.client (tableName defaultConfig)
       (rowQuery defaultConfig OpNe "app:current") None Samples.store3active
       Samples.pages3 Samples.store3active
  /\ (length Samples.pages3 <= 3)%nat
  /\ _list MemStore.client defaultConfig 3 Samples.ctxGhi Samples.store3active
     = (Samples.store3active, Resolved (Samples.listing3 true))
  /\ exists l,
      _list MemStore.client defaultConfig 3 Samples.ctxGhi Samples.store3active
        = (Samples.store3active, Resolved l)
      /\ l ≡ₚ (fun e => {| revision := RowKey (entity e);
                           timestamp := Timestamp e;
                           active := match VString "app:abc" with
                                     | VString c => String.eqb c (RowKey (entity e))
                                     | _ => false
                                     end |}) <$> concat Samples.pages3
      /\ length l = length (concat Samples.pages3)
      /\ (1 <= length Samples.pages3)%nat.
Proof.
  assert (_current MemStore.client defaultConfig Samples.ctxGhi Samples.store3active
          = (Samples.store3active, Resolved (VString "app:abc"))) as H1
    by (vm_compute; reflexivity).
  assert (createTableIfNotExists MemStore.client (tableName defaultConfig)
            Samples.store3active = (Samples.store3active, inr tt)) as H2
    by (vm_compute; reflexivity).
  assert (_currentKey defaultConfig Samples.ctxGhi = inr "app:current") as H3 by reflexivity.
  assert (serves MemStore.client (tableName defaultConfig)
            (rowQuery defaultConfig OpNe "app:current") None Samples.store3active
            Samples.pages3 Samples.store3active) as H4.
  { apply (serves_more _ _ _ None Samples.store3active Samples.store3active _ _ 1%nat);
      [vm_compute; reflexivity|].
    apply (serves_more _ _ _ (Some 1%nat) Samples.store3active Samples.store3active _ _ 2%nat);
      [vm_compute; reflexivity|].
    apply serves_last. vm_compute. reflexivity. }
  assert (length Samples.pages3 <= 3)%nat as H5 by (simpl; lia).
  do 5 (split; [assumption|]). split; [vm_compute; reflexivity|].
  exact (list_collects_all_pages MemStore.client defaultConfig 3 Samples.ctxGhi
           Samples.store3active Samples.store3active Samples.store3active
           Samples.store3active (VString "app:abc") "app:current" Samples.pages3
           H1 H2 H3 H4 H5).
Defined.

Lemma list_sorted_newest_first_witness :
  _list MemStore.client defaultConfig 5 Samples.ctxAbc Samples.store3
    = (Samples.store3, Resolved (Samples.listing3 false))
  /\ StronglySorted newestFirst (Samples.listing3 false)
  /\ forall r1 r2 r3, Samples.listing3 false ≡ₚ [r1; r2; r3] ->
       timestamp r1 < timestamp r2 < timestamp r3 -> Samples.listing3 false = [r3; r2; r1].
Proof.
  assert (_list MemStore.client defaultConfig 5 Samples.ctxAbc Samples.store3
          = (Samples.store3, Resolved (Samples.listing3 false))) as H1
    by (vm_compute; reflexivity).
  split; [assumption|].
  exact (list_sorted_newest_first MemStore.client defaultConfig 5 Samples.ctxAbc
           Samples.store3 Samples.store3 (Samples.listing3 false) H1).
Defined.

Lemma list_page_failure_rejects_witness :
  _current MemStore.client defaultConfig Samples.ctxAbc Samples.store3flaky
    = (MemStore.withFaults Samples.store3 [None; None; Some Samples.serverBusy],
       Resolved VNull)
  /\ createTableIfNotExists MemStore.client (tableName defaultConfig)
       (MemStore.withFaults Samples.store3 [None; None; Some Samples.serverBusy])
     = (MemStore.withFaults Samples.store3 [None; Some Samples.serverBusy], inr tt)
  /\ _currentKey defaultConfig Samples.ctxAbc = inr "app:current"
  /\ failsAfter MemStore.client (tableName defaultConfig)
       (rowQuery defaultConfig OpNe "app:current") None
       (MemStore.withFaults Samples.store3 [None; Some Samples.serverBusy])
       [[Samples.entryOf "app:ghi" 2]] Samples.serverBusy
       (MemStore.withFaults Samples.store3 [])
  /\ (length [[Samples.entryOf "app:ghi" 2]] < 5)%nat
  /\ _list MemStore.client defaultConfig 5 Samples.ctxAbc Samples.store3flaky
     = (MemStore.withFaults Samples.store3 [], Rejected (StoreFailure Samples.serverBusy)).
Proof.
  assert (_current MemStore.client defaultConfig Samples.ctxAbc Samples.store3flaky
          = (MemStore.withFaults Samples.store3 [None; None; Some Samples.serverBusy],
             Resolved VNull)) as H1 by (vm_compute; reflexivity).
  assert (createTableIfNotExists MemStore.client (tableName defaultConfig)
            (MemStore.withFaults Samples.store3 [None; None; Some Samples.serverBusy])
          = (MemStore.withFaults Samples.store3 [None; Some Samples.serverBusy], inr tt)) as H2
    by (vm_compute; reflexivity).
  assert (_currentKey defaultConfig Samples.ctxAbc = inr "app:current") as H3 by reflexivity.
  assert (failsAfter MemStore.client (tableName defaultConfig)
            (rowQuery defaultConfig OpNe "app:current") None
            (MemStore.withFaults Samples.store3 [None; Some Samples.serverBusy])
            [[Samples.entryOf "app:ghi" 2]] Samples.serverBusy
            (MemStore.withFaults Samples.store3 [])) as H4.
  { apply (fails_later _ _ _ None _
             (MemStore.withFaults Samples.store3 [Some Samples.serverBusy]) _ _ 1%nat);
      [vm_compute; reflexivity|].
    apply fails_now. vm_compute. reflexivity. }
  assert (length [[Samples.entryOf "app:ghi" 2]] < 5)%nat as H5 by (simpl; lia).
  do 5 (split; [assumption|]).
  exact (list_page_failure_rejects MemStore.client defaultConfig 5 Samples.ctxAbc
           Samples.store3flaky _ _ _ VNull "app:current" _ Samples.serverBusy
           H1 H2 H3 H4 H5).
Defined.

Lemma willActivate_records_previous_witness :
  _currentKey defaultConfig Samples.ctxAbc = inr "app:current"
  /\ MemStore.faults Samples.store3active = []
  /\ (forall name,
        MemStore.rowsOf
          (willActivate MemStore.client defaultConfig Samples.ctxAbc Samples.store3active).1 name
        = MemStore.rowsOf Samples.store3active name)
  /\ (MemStore.faults Samples.store3active = [] ->
      exists s' context' rd,
        willActivate MemStore.client defaultConfig Samples.ctxAbc Samples.store3active
          = (s', Resolved context')
        /\ revisionData context' = Some rd
        /\ previousRevisionKey rd =
             Some (match MemStore.rowsOf Samples.store3active (tableName defaultConfig)
                           !! (manifestTag defaultConfig, "app:current") with
                   | Some row => MemStore.rowContent row
                   | None => VNull
                   end)
        /\ revisionKey rd
             = revisionKey (default emptyRevisionData (revisionData Samples.ctxAbc))
        /\ activatedRevisionKey rd
             = activatedRevisionKey (default emptyRevisionData (revisionData Samples.ctxAbc))
        /\ commandOptions_revision context' = commandOptions_revision Samples.ctxAbc
        /\ project_name context' = project_name Samples.ctxAbc
        /\ distDir context' = distDir Samples.ctxAbc).
Proof.
  assert (_currentKey defaultConfig Samples.ctxAbc = inr "app:current") as H1 by reflexivity.
  split; [assumption|]. split; [vm_compute; reflexivity|].
  exact (willActivate_records_previous defaultConfig Samples.ctxAbc "app:current"
           Samples.store3active H1).
Defined.

(** In that state the previous revision recorded is [app:abc]; in a store
    never activated it is [null]. *)
Example willActivate_examples :
  (willActivate MemStore.client defaultConfig Samples.ctxAbc Samples.store3active).2
    = Resolved (setPreviousRevisionKey Samples.ctxAbc (VString "app:abc"))
  /\ (willActivate MemStore.client defaultConfig Samples.ctxAbc Samples.store3).2
    = Resolved (setPreviousRevisionKey Samples.ctxAbc VNull).
Proof. vm_compute. split; reflexivity. Qed.

(** * Further properties of the code *)

(** ** Key codec *)







(** ** Which rows the operations touch, whatever faults are scheduled *)

Module StoreRuns.
Import MemStore MemStoreFacts.

Lemma _query_rows (cfg : Config) (q : TableQuery) (current : Value) :
  forall fuel token acc s n,
    rowsOf (_query client cfg fuel token q acc current s).1 n = rowsOf s n.
Proof.
  induction fuel as [|fuel IH]; intros token acc s n; [done|].
  rewrite _query_step.
  pose proof (queryEntities_rows (tableName cfg) q token s n) as H.
  destruct (queryEntities client (tableName cfg) q token s) as [s1 [error|result]]; [done|].
  destruct (continuationToken result); [|done]. by rewrite IH.
Qed.

Lemma _list_rows (cfg : Config) (context : Context) (fuel : nat) (s : State) (n : string) :
  rowsOf (_list client cfg fuel context s).1 n = rowsOf s n.
Proof.
  unfold _list, then_, call, eval.
  pose proof (_current_rows cfg context s n) as H1.
  destruct (_current client cfg context s) as [s1 [current| | | |]]; try done.
  pose proof (createTableIfNotExists_rows (tableName cfg) s1 n) as H2.
  destruct (createTableIfNotExists client (tableName cfg) s1) as [s2 [error|[]]];
    simpl in *; [congruence|].
  destruct (_currentKey cfg context) as [e|ck]; [simpl; congruence|].
  rewrite _query_rows. congruence.
Qed.

Lemma insert_keeps (name : string) (e : Entity) (s : State) (n : string) key row :
  rowsOf s n !! key = Some row -> rowsOf (insert_ name e s).1 n !! key = Some row.
Proof.
  intros Hrow. unfold insert_.
  destruct (tables s !! name) as [t|] eqn:Ht; [|done].
  destruct (t !! (PartitionKey e, RowKey e)) as [old|] eqn:Hold; [done|].
  cbn [fst]. unfold rowsOf in *. cbn [tick withTables tables].
  destruct (decide (name = n)) as [<-|Hn].
  - rewrite lookup_insert_eq. rewrite Ht in Hrow. cbn in Hrow |- *.
    destruct (decide ((PartitionKey e, RowKey e) = key)) as [<-|Hk]; [congruence|].
    by rewrite lookup_insert_ne.
  - by rewrite lookup_insert_ne.
Qed.

Lemma insertEntity_keeps (name : string) (e : Entity) (s : State) (n : string) key row :
  rowsOf s n !! key = Some row ->
  rowsOf (insertEntity client name e s).1 n !! key = Some row.
Proof.
  intros Hrow. cbn [insertEntity client]. unfold guarded.
  destruct (faults s) as [|[error|] rest]; [by apply insert_keeps|done|].
  by apply (insert_keeps name e (withFaults s rest)).
Qed.

Lemma upsert_other (name : string) (e : Entity) (s : State) (n : string) key :
  (n, key) <> (name, (PartitionKey e, RowKey e)) ->
  rowsOf (upsert name e s).1 n !! key = rowsOf s n !! key.
Proof.
  intros Hne. unfold upsert.
  destruct (tables s !! name) as [t|] eqn:Ht; [|done].
  cbn [fst]. unfold rowsOf. cbn [tick withTables tables].
  destruct (decide (name = n)) as [<-|Hn].
  - rewrite lookup_insert_eq, Ht. cbn.
    rewrite lookup_insert_ne; [done|]. congruence.
  - by rewrite lookup_insert_ne.
Qed.

Lemma insertOrReplaceEntity_other (name : string) (e : Entity) (s : State) (n : string) key :
  (n, key) <> (name, (PartitionKey e, RowKey e)) ->
  rowsOf (insertOrReplaceEntity client name e s).1 n !! key = rowsOf s n !! key.
Proof.
  intros Hne. cbn [insertOrReplaceEntity client]. unfold guarded.
  destruct (faults s) as [|[error|] rest]; [by apply upsert_other|done|].
  by apply (upsert_other name e (withFaults s rest)).
Qed.

(** [_current] and [_list] read the context only through [_currentKey]. *)
Lemma _current_context {St Token : Type} (c : TableService St Token) (cfg : Config)
    (c1 c2 : Context) (s : St) :
  _currentKey cfg c1 = _currentKey cfg c2 -> _current c cfg c1 s = _current c cfg c2 s.
Proof. intros H. unfold _current. by rewrite H. Qed.

Lemma _list_context {St Token : Type} (c : TableService St Token) (cfg : Config)
    (c1 c2 : Context) (fuel : nat) (s : St) :
  _currentKey cfg c1 = _currentKey cfg c2 -> _list c cfg fuel c1 s = _list c cfg fuel c2 s.
Proof.
  intros H. unfold _list, then_. rewrite (_current_context c cfg c1 c2) by done.
  destruct (_current c cfg c2 s) as [s1 [current| | | |]]; try done.
  destruct (call (createTableIfNotExists c (tableName cfg)) s1) as [s2 [[]| | | |]]; try done.
  by rewrite H.
Qed.

(** What [upload] does when no fault is scheduled. *)
Lemma upload_run (gzipSync : string -> list Byte.byte)
    (readFile : string -> FileError + string) (path_join : string -> string -> string)
    (cfg : Config) (context : Context) (k buffer : string) (s : State) :
  faults s = [] ->
  _key cfg context = inr k ->
  readFile (path_join (distDir context) "index.html") = inr buffer ->
  upload client gzipSync readFile path_join cfg context s =
    match rowsOf s (tableName cfg) !! (manifestTag cfg, k) with
    | Some _ => (ensure (tableName cfg) s, Rejected (Message duplicateMessage))
    | None =>
        (written (tableName cfg)
           {| PartitionKey := manifestTag cfg; RowKey := k;
              content := if compressIndex cfg then VBinary (gzipSync buffer) else VString buffer;
              compression := if compressIndex cfg then Some "gzip" else None |}
           (ensure (tableName cfg) s), Resolved tt)
    end.
Proof.
  intros Hf Hk Hfile. unfold upload. rewrite Hk, Hfile. unfold then_, call, reject.
  rewrite createTableIfNotExists_ok by done.
  rewrite (queryEntities_ok _ _ _ _ (rowsOf s (tableName cfg)))
    by (by rewrite ?faults_ensure, ?tables_ensure).
  rewrite select_eq.
  destruct (rowsOf s (tableName cfg) !! (manifestTag cfg, k)) as [row|] eqn:Hrow;
    rewrite page_short by (simpl; lia); cbn [entries length Nat.ltb Nat.leb].
  - done.
  - rewrite (insertEntity_ok _ _ _ (rowsOf s (tableName cfg)));
      rewrite ?faults_ensure, ?tables_ensure; done.
Qed.

(** A new row that the query selects joins the selection. *)
Lemma select_insert_new (q : TableQuery) (key : string * string) (row : Row)
    (t : gmap (string * string) Row) :
  t !! key = None -> matchesKey q key = true ->
  select q (<[key := row]> t) ≡ₚ toEntry (key, row) :: select q t.
Proof.
  intros Hnone Hq. unfold select.
  rewrite map_filter_insert_True by done.
  rewrite map_to_list_insert; [done|].
  apply map_lookup_filter_None. by left.
Qed.
End StoreRuns.

(** [upload] never overwrites or removes a row: whatever the store answers,
    a row that was in some table before is there, unchanged, afterwards. *)
Theorem upload_never_overwrites (gzipSync : string -> list Byte.byte)
    (readFile : string -> FileError + string) (path_join : string -> string -> string)
    (cfg : Config) (context : Context) (s : MemStore.State)
    (name : string) (key : string * string) (row : MemStore.Row) :
  MemStore.rowsOf s name !! key = Some row ->
  MemStore.rowsOf (upload MemStore.client gzipSync readFile path_join cfg context s).1 name
    !! key = Some row.
Proof.
  intros Hrow. unfold upload.
  destruct (_key cfg context) as [e|k]; [done|].
  destruct (readFile (path_join (distDir context) "index.html")) as [error|buffer]; [done|].
  unfold then_, call, reject.
  pose proof (MemStoreFacts.createTableIfNotExists_rows (tableName cfg) s name) as H1.
  destruct (createTableIfNotExists MemStore.client (tableName cfg) s) as [s1 [error|[]]];
    cbn [fst] in *; [by rewrite H1|].
  pose proof (MemStoreFacts.queryEntities_rows (tableName cfg) (rowQuery cfg OpEq k) None
                s1 name) as H2.
  destruct (queryEntities MemStore.client (tableName cfg) (rowQuery cfg OpEq k) None s1)
    as [s2 [error|result]]; cbn [fst] in *; [by rewrite H2, H1|].
  destruct (0 <? length (entries result))%nat; cbn beta iota delta [fst];
    [by rewrite H2, H1|].
  set (entity := {| PartitionKey := manifestTag cfg; RowKey := k;
                    content := _; compression := _ |}).
  assert (MemStore.rowsOf s2 name !! key = Some row) as Hrow2 by (by rewrite H2, H1).
  pose proof (StoreRuns.insertEntity_keeps (tableName cfg) entity s2 name key row Hrow2) as H3.
  by destruct (insertEntity MemStore.client (tableName cfg) entity s2) as [s3 [error|[]]].
Qed.

Lemma upload_never_overwrites_witness :
  MemStore.rowsOf Samples.store1 "emberdeploy" !! ("manifest", "app:abc")
    = Some {| MemStore.rowContent := VString "<html></html>";
              MemStore.rowCompression := None; MemStore.rowTimestamp := 0 |}
  /\ MemStore.rowsOf
       (upload MemStore.client Samples.gzipSync Samples.readFile Samples.path_join
          defaultConfig Samples.ctxAbc Samples.store1).1 "emberdeploy"
       !! ("manifest", "app:abc")
     = Some {| MemStore.rowContent := VString "<html></html>";
               MemStore.rowCompression := None; MemStore.rowTimestamp := 0 |}.
Proof.
  assert (MemStore.rowsOf Samples.store1 "emberdeploy" !! ("manifest", "app:abc")
          = Some {| MemStore.rowContent := VString "<html></html>";
                    MemStore.rowCompression := None; MemStore.rowTimestamp := 0 |}) as H
    by (vm_compute; reflexivity).
  split; [assumption|].
  exact (upload_never_overwrites Samples.gzipSync Samples.readFile Samples.path_join
           defaultConfig Samples.ctxAbc Samples.store1 "emberdeploy"
           ("manifest", "app:abc") _ H).
Defined.

(** [activate] touches no row but the pointer row of its project: whatever
    the store answers, every other row of every table is afterwards as it
    was before. *)
Theorem activate_touches_only_pointer (cfg : Config) (context : Context) (ck : string)
    (fuel : nat) (s : MemStore.State) (name : string) (key : string * string) :
  _currentKey cfg context = inr ck ->
  (name, key) <> (tableName cfg, (manifestTag cfg, ck)) ->
  MemStore.rowsOf (activate MemStore.client cfg fuel context s).1 name !! key
    = MemStore.rowsOf s name !! key.
Proof.
  intros Hck Hne. unfold activate.
  destruct (_key cfg context) as [e|k]; [done|].
  destruct (_currentKey_inv _ _ _ Hck) as (p & Hp & ->). rewrite Hp.
  pose proof (StoreRuns._list_rows cfg context fuel s name) as H1.
  destruct (_list MemStore.client cfg fuel context s) as [s1 [l| | | |]];
    cbn [fst] in *; try (by rewrite H1).
  set (entity := {| PartitionKey := manifestTag cfg; RowKey := p +:+ ":current";
                    content := VString k; compression := None |}).
  pose proof (StoreRuns.insertOrReplaceEntity_other (tableName cfg) entity s1 name key Hne)
    as H2.
  destruct (insertOrReplaceEntity MemStore.client (tableName cfg) entity s1)
    as [s2 [error|[]]]; cbn [fst] in *;
    destruct (existsb _ l); cbn [fst]; by rewrite H2, H1.
Qed.

Lemma activate_touches_only_pointer_witness :
  _currentKey defaultConfig Samples.ctxZzz = inr "app:current"
  /\ ("emberdeploy", ("manifest", "app:abc"))
     <> (tableName defaultConfig, (manifestTag defaultConfig, "app:current"))
  /\ MemStore.rowsOf
       (activate MemStore.client defaultConfig 5 Samples.ctxZzz Samples.store3active).1
       "emberdeploy" !! ("manifest", "app:abc")
     = MemStore.rowsOf Samples.store3active "emberdeploy" !! ("manifest", "app:abc").
Proof.
  assert (_currentKey defaultConfig Samples.ctxZzz = inr "app:current") as H1 by reflexivity.
  assert (("emberdeploy", ("manifest", "app:abc"))
          <> (tableName defaultConfig, (manifestTag defaultConfig, "app:current"))) as H2
    by discriminate.
  do 2 (split; [assumption|]).
  exact (activate_touches_only_pointer defaultConfig Samples.ctxZzz "app:current" 5
           Samples.store3active "emberdeploy" ("manifest", "app:abc") H1 H2).
Defined.

(** When the listing inside [activate] is rejected with a store error, the
    promise that [activate] returns is never settled, neither resolved nor
    rejected, and no row is written. *)
Theorem activate_pending_when_listing_fails (cfg : Config) (context : Context) (k : string)
    (fuel : nat) (s s1 : MemStore.State) (r : Reason) :
  _key cfg context = inr k ->
  _list MemStore.client cfg fuel context s = (s1, Rejected r) ->
  activate MemStore.client cfg fuel context s = (s1, Pending)
  /\ forall name, MemStore.rowsOf s1 name = MemStore.rowsOf s name.
Proof.
  intros Hk Hl. split.
  - unfold activate. rewrite Hk.
    destruct (_key_inv _ _ _ Hk) as (p & _ & Hp & _). by rewrite Hp, Hl.
  - intros name. pose proof (StoreRuns._list_rows cfg context fuel s name) as H.
    by rewrite Hl in H.
Qed.

Lemma activate_pending_when_listing_fails_witness :
  _key defaultConfig Samples.ctxAbc = inr "app:abc"
  /\ _list MemStore.client defaultConfig 5 Samples.ctxAbc Samples.store3flaky
     = (Samples.store3, Rejected (StoreFailure Samples.serverBusy))
  /\ activate MemStore.client defaultConfig 5 Samples.ctxAbc Samples.store3flaky
     = (Samples.store3, Pending)
  /\ forall name, MemStore.rowsOf Samples.store3 name
                  = MemStore.rowsOf Samples.store3flaky name.
Proof.
  assert (_key defaultConfig Samples.ctxAbc = inr "app:abc") as H1 by reflexivity.
  assert (_list MemStore.client defaultConfig 5 Samples.ctxAbc Samples.store3flaky
          = (Samples.store3, Rejected (StoreFailure Samples.serverBusy))) as H2
    by (vm_compute; reflexivity).
  do 2 (split; [assumption|]).
  exact (activate_pending_when_listing_fails defaultConfig Samples.ctxAbc "app:abc" 5
           Samples.store3flaky Samples.store3 _ H1 H2).
Defined.

(** When the key is listed and the upsert of the pointer fails, [activate]
    rejects with that store error and every row is as it was. *)
Theorem activate_upsert_failure (cfg : Config) (context : Context) (k : string)
    (fuel : nat) (s s1 : MemStore.State) (l : list Revision)
    (error : StoreError) (rest : list (option StoreError)) :
  _key cfg context = inr k ->
  _list MemStore.client cfg fuel context s = (s1, Resolved l) ->
  k ∈ revision <$> l ->
  MemStore.faults s1 = Some error :: rest ->
  activate MemStore.client cfg fuel context s
    = (MemStore.withFaults s1 rest, Rejected (StoreFailure error))
  /\ forall name, MemStore.rowsOf (MemStore.withFaults s1 rest) name = MemStore.rowsOf s name.
Proof.
  intros Hk Hl Hin Hf. split.
  - unfold activate. rewrite Hk.
    destruct (_key_inv _ _ _ Hk) as (p & _ & Hp & _). rewrite Hp, Hl.
    cbn [insertOrReplaceEntity MemStore.client]. unfold MemStore.guarded. rewrite Hf.
    by rewrite (proj2 (MemStoreFacts.existsb_revision k l) Hin).
  - intros name. pose proof (StoreRuns._list_rows cfg context fuel s name) as H.
    by rewrite Hl in H.
Qed.

Lemma activate_upsert_failure_witness :
  _key defaultConfig Samples.ctxAbc = inr "app:abc"
  /\ _list MemStore.client defaultConfig 5 Samples.ctxAbc Samples2.store3upsertFails
     = (MemStore.withFaults Samples.store3 [Some Samples.serverBusy],
        Resolved (Samples.listing3 false))
  /\ "app:abc" ∈ revision <$> Samples.listing3 false
  /\ MemStore.faults (MemStore.withFaults Samples.store3 [Some Samples.serverBusy])
     = Some Samples.serverBusy :: []
  /\ activate MemStore.client defaultConfig 5 Samples.ctxAbc Samples2.store3upsertFails
     = (MemStore.withFaults (MemStore.withFaults Samples.store3 [Some Samples.serverBusy]) [],
        Rejected (StoreFailure Samples.serverBusy))
  /\ forall name,
       MemStore.rowsOf
         (MemStore.withFaults (MemStore.withFaults Samples.store3 [Some Samples.serverBusy]) [])
         name
       = MemStore.rowsOf Samples2.store3upsertFails name.
Proof.
  assert (_key defaultConfig Samples.ctxAbc = inr "app:abc") as H1 by reflexivity.
  assert (_list MemStore.client defaultConfig 5 Samples.ctxAbc Samples2.store3upsertFails
          = (MemStore.withFaults Samples.store3 [Some Samples.serverBusy],
             Resolved (Samples.listing3 false))) as H2 by (vm_compute; reflexivity).
  assert ("app:abc" ∈ revision <$> Samples.listing3 false) as H3
    by (simpl; repeat constructor).
  assert (MemStore.faults (MemStore.withFaults Samples.store3 [Some Samples.serverBusy])
          = Some Samples.serverBusy :: []) as H4 by reflexivity.
  do 4 (split; [assumption|]).
  exact (activate_upsert_failure defaultConfig Samples.ctxAbc "app:abc" 5
           Samples2.store3upsertFails _ _ Samples.serverBusy [] H1 H2 H3 H4).
Defined.

(** ** What a listing shows *)

Module ListingFacts.
Import MemStore MemStoreFacts.

Lemma _list_value (cfg : Config) (context : Context) (ck : string) (fuel : nat)
    (s s1 : State) (l : list Revision) :
  _currentKey cfg context = inr ck ->
  faults s = [] ->
  _list client cfg fuel context s = (s1, Resolved l) ->
  s1 = ensure (tableName cfg) s
  /\ l = toRevision (pointerValue (manifestTag cfg) ck (rowsOf s (tableName cfg)))
           <$> sort byTimestampDesc (listed cfg ck s).
Proof.
  intros Hck Hf Hl. rewrite (_list_ok cfg context ck Hck) in Hl by done.
  destruct (fetchAll fuel (pageLimit s) 0 (listed cfg ck s) []) as [es|] eqn:Hes;
    [|discriminate Hl].
  apply fetchAll_Some in Hes. rewrite drop_0, app_nil_l in Hes. subst es.
  by injection Hl as <- <-.
Qed.

Lemma elem_of_select (q : TableQuery) (t : gmap (string * string) Row) (e : Entry) :
  e ∈ select q t <->
  exists key row, e = toEntry (key, row) /\ t !! key = Some row /\ matchesKey q key = true.
Proof.
  unfold select. rewrite list_elem_of_fmap. split.
  - intros ([key row] & -> & Hin). apply elem_of_map_to_list in Hin.
    apply map_lookup_filter_Some in Hin as [Hrow Hq]. by exists key, row.
  - intros (key & row & -> & Hrow & Hq). exists (key, row). split; [done|].
    apply elem_of_map_to_list. by apply map_lookup_filter_Some.
Qed.

Lemma listed_ensure (cfg : Config) (ck : string) (s : State) :
  listed cfg ck (ensure (tableName cfg) s) = listed cfg ck s.
Proof. unfold listed. by rewrite rowsOf_ensure. Qed.

Lemma NoDup_filter_le {A B : Type} `{EqDecision B} (f : A -> B) (b : B) (l : list A) :
  NoDup (f <$> l) -> (length (filter (fun a => f a = b) l) <= 1)%nat.
Proof.
  intros Hnd. destruct (decide (b ∈ f <$> l)) as [Hin|Hnot].
  - by rewrite (count_NoDup f b l Hnd Hin).
  - destruct (filter (fun a => f a = b) l) as [|a l'] eqn:Hfl; [simpl; lia|]. exfalso.
    assert (a ∈ filter (fun a => f a = b) l) as Hin by (rewrite Hfl; left).
    apply list_elem_of_filter in Hin as [Heq Hin]. apply Hnot. rewrite <-Heq.
    apply list_elem_of_fmap. eauto.
Qed.

Lemma filter_none {A : Type} (P : A -> Prop) `{forall x, Decision (P x)} (l : list A) :
  Forall (fun x => ~ P x) l -> filter P l = [].
Proof.
  induction 1 as [|x l Hx _ IH]; [done|].
  rewrite filter_cons. by case_decide.
Qed.

Lemma filter_fmap_length {A B : Type} (f : A -> B) (P : B -> Prop)
    `{forall y, Decision (P y)} (l : list A) :
  length (filter P (f <$> l)) = length (filter (fun x => P (f x)) l).
Proof.
  induction l as [|x l IH]; [done|].
  rewrite fmap_cons, !filter_cons. case_decide; simpl; by rewrite IH.
Qed.
End ListingFacts.

(** Listing twice with no write in between gives the same answer: run on the
    state that a listing leaves, [_list] ends in that same state with the
    same outcome. *)
Theorem list_idempotent (cfg : Config) (context : Context) (fuel : nat) (s : MemStore.State) :
  MemStore.faults s = [] ->
  _list MemStore.client cfg fuel context (_list MemStore.client cfg fuel context s).1
    = _list MemStore.client cfg fuel context s.
Proof.
  intros Hf. destruct (_currentKey cfg context) as [e|ck] eqn:Hck.
  - assert (forall s0, MemStore.faults s0 = [] ->
              _list MemStore.client cfg fuel context s0
              = (MemStore.ensure (tableName cfg) s0, Thrown e)) as Hthrow.
    { intros s0 Hf0. unfold _list, _current, then_, call, eval.
      rewrite MemStoreFacts.createTableIfNotExists_ok by done. by rewrite Hck. }
    rewrite (Hthrow s Hf). cbn [fst].
    rewrite Hthrow by (by rewrite MemStoreFacts.faults_ensure).
    by rewrite MemStoreFacts.ensure_idem.
  - rewrite (MemStoreFacts._list_ok cfg context ck Hck fuel s Hf). cbn [fst].
    rewrite (MemStoreFacts._list_ok cfg context ck Hck)
      by (by rewrite MemStoreFacts.faults_ensure).
    by rewrite MemStoreFacts.ensure_idem, MemStoreFacts.pageLimit_ensure,
      ListingFacts.listed_ensure, MemStoreFacts.rowsOf_ensure.
Qed.

Lemma list_idempotent_witness :
  MemStore.faults Samples.store3active = []
  /\ _list MemStore.client defaultConfig 5 Samples.ctxAbc Samples.store3active
     = (Samples.store3active, Resolved (Samples.listing3 true))
  /\ _list MemStore.client defaultConfig 5 Samples.ctxAbc
       (_list MemStore.client defaultConfig 5 Samples.ctxAbc Samples.store3active).1
     = _list MemStore.client defaultConfig 5 Samples.ctxAbc Samples.store3active.
Proof.
  assert (MemStore.faults Samples.store3active = []) as H by (vm_compute; reflexivity).
  split; [assumption|]. split; [vm_compute; reflexivity|].
  exact (list_idempotent defaultConfig Samples.ctxAbc 5 Samples.store3active H).
Defined.



(** At most one entry of a listing is marked active, and none is when the
    pointer row is missing. *)
Theorem list_at_most_one_active (cfg : Config) (context : Context) (ck : string) (fuel : nat)
    (s s1 : MemStore.State) (l : list Revision) :
  MemStore.faults s = [] ->
  _currentKey cfg context = inr ck ->
  _list MemStore.client cfg fuel context s = (s1, Resolved l) ->
  (length (filter (fun r => active r = true) l) <= 1)%nat
  /\ (MemStore.rowsOf s (tableName cfg) !! (manifestTag cfg, ck) = None ->
      Forall (fun r => active r = false) l).
Proof.
  intros Hf Hck Hl.
  destruct (ListingFacts._list_value cfg context ck fuel s s1 l Hck Hf Hl) as [_ ->].
  split.
  - rewrite ListingFacts.filter_fmap_length.
    destruct (MemStore.pointerValue (manifestTag cfg) ck (MemStore.rowsOf s (tableName cfg)))
      as [|c|b].
    + rewrite ListingFacts.filter_none; [simpl; lia|]. by apply Forall_forall.
    + rewrite (list_filter_iff _ (fun e => RowKey (entity e) = c)).
      * apply ListingFacts.NoDup_filter_le. rewrite sort_Permutation.
        apply MemStoreFacts.select_NoDup_rowKey.
      * intros e. cbn [toRevision active strict_eq].
        rewrite String.eqb_eq. split; congruence.
    + rewrite ListingFacts.filter_none; [simpl; lia|]. by apply Forall_forall.
  - intros Hnone. unfold MemStore.pointerValue. rewrite Hnone.
    apply Forall_fmap, Forall_forall. done.
Qed.

Lemma list_at_most_one_active_witness :
  MemStore.faults Samples.store3active = []
  /\ _currentKey defaultConfig Samples.ctxAbc = inr "app:current"
  /\ _list MemStore.client defaultConfig 5 Samples.ctxAbc Samples.store3active
     = (Samples.store3active, Resolved (Samples.listing3 true))
  /\ (length (filter (fun r => active r = true) (Samples.listing3 true)) <= 1)%nat
  /\ (MemStore.rowsOf Samples.store3active (tableName defaultConfig)
        !! (manifestTag defaultConfig, "app:current") = None ->
      Forall (fun r => active r = false) (Samples.listing3 true)).
Proof.
  assert (MemStore.faults Samples.store3active = []) as H1 by (vm_compute; reflexivity).
  assert (_currentKey defaultConfig Samples.ctxAbc = inr "app:current") as H2 by reflexivity.
  assert (_list MemStore.client defaultConfig 5 Samples.ctxAbc Samples.store3active
          = (Samples.store3active, Resolved (Samples.listing3 true))) as H3
    by (vm_compute; reflexivity).
  do 3 (split; [assumption|]).
  exact (list_at_most_one_active defaultConfig Samples.ctxAbc "app:current" 5
           Samples.store3active Samples.store3active _ H1 H2 H3).
Defined.

(** ** Uploading, then listing and activating *)

Module PipelineFacts.
Import MemStore MemStoreFacts.

Section AfterUpload.
Variable gzipSync : string -> list Byte.byte.
Variable readFile : string -> FileError + string.
Variable path_join : string -> string -> string.
Variable cfg : Config.
Variable context : Context.
Variables k ck buffer : string.
Variable s : State.
Hypothesis Hf : faults s = [].
Hypothesis Hk : _key cfg context = inr k.
Hypothesis Hck : _currentKey cfg context = inr ck.
Hypothesis Hfile : readFile (path_join (distDir context) "index.html") = inr buffer.
Hypothesis Hnone : rowsOf s (tableName cfg) !! (manifestTag cfg, k) = None.

Let payload : Value := if compressIndex cfg then VBinary (gzipSync buffer) else VString buffer.
Let row : Row :=
  {| rowContent := payload;
     rowCompression := if compressIndex cfg then Some "gzip" else None;
     rowTimestamp := clock s |}.
Let s1 : State := (upload client gzipSync readFile path_join cfg context s).1.

Lemma uploaded_outcome :
  (upload client gzipSync readFile path_join cfg context s).2 = Resolved tt.
Proof. rewrite (StoreRuns.upload_run _ _ _ _ _ k buffer) by done. by rewrite Hnone. Qed.

Lemma uploaded_faults : faults s1 = [].
Proof.
  unfold s1. rewrite (StoreRuns.upload_run _ _ _ _ _ k buffer) by done. rewrite Hnone.
  cbn [fst]. by rewrite faults_written, faults_ensure.
Qed.

Lemma uploaded_pageLimit : pageLimit s1 = pageLimit s.
Proof.
  unfold s1. rewrite (StoreRuns.upload_run _ _ _ _ _ k buffer) by done. rewrite Hnone.
  cbn [fst]. by rewrite pageLimit_written, pageLimit_ensure.
Qed.

Lemma uploaded_ensure : ensure (tableName cfg) s1 = s1.
Proof.
  unfold s1. rewrite (StoreRuns.upload_run _ _ _ _ _ k buffer) by done. rewrite Hnone.
  cbn [fst]. apply ensure_written.
Qed.

Lemma uploaded_rows :
  rowsOf s1 (tableName cfg) = <[(manifestTag cfg, k) := row]> (rowsOf s (tableName cfg)).
Proof.
  unfold s1. rewrite (StoreRuns.upload_run _ _ _ _ _ k buffer) by done. rewrite Hnone.
  cbn [fst]. by rewrite rowsOf_written_ensure.
Qed.

Lemma uploaded_pointer :
  k <> ck ->
  pointerValue (manifestTag cfg) ck (rowsOf s1 (tableName cfg))
    = pointerValue (manifestTag cfg) ck (rowsOf s (tableName cfg)).
Proof.
  intros Hne. unfold pointerValue. rewrite uploaded_rows.
  rewrite lookup_insert_ne; [done|]. congruence.
Qed.

Lemma uploaded_listed :
  k <> ck ->
  listed cfg ck s1 ≡ₚ toEntry ((manifestTag cfg, k), row) :: listed cfg ck s.
Proof.
  intros Hne. unfold listed. rewrite uploaded_rows.
  apply StoreRuns.select_insert_new; [done|]. by apply matchesKey_rowQuery.
Qed.

Lemma uploaded_list (fuel : nat) :
  k <> ck -> (length (listed cfg ck s) + 1 < fuel)%nat ->
  _list client cfg fuel context s1
    = (s1, Resolved (toRevision (pointerValue (manifestTag cfg) ck (rowsOf s (tableName cfg)))
                       <$> sort byTimestampDesc (listed cfg ck s1))).
Proof.
  intros Hne Hfuel.
  rewrite (_list_resolves cfg context ck Hck fuel s1 uploaded_faults).
  - by rewrite uploaded_ensure, uploaded_pointer.
  - rewrite (Permutation_length (uploaded_listed Hne)). simpl. lia.
Qed.

Lemma uploaded_key_listed :
  k <> ck ->
  k ∈ (fun e => RowKey (entity e)) <$> sort byTimestampDesc (listed cfg ck s1).
Proof.
  intros Hne. rewrite sort_Permutation, (uploaded_listed Hne). rewrite fmap_cons. left.
Qed.
End AfterUpload.

Lemma _key_setPreviousRevisionKey (cfg : Config) (context : Context) (v : Value) :
  _key cfg (setPreviousRevisionKey context v) = _key cfg context
  /\ _currentKey cfg (setPreviousRevisionKey context v) = _currentKey cfg context.
Proof.
  unfold _key, _currentKey, revisionKeyOf, _projectName, setPreviousRevisionKey.
  cbn [commandOptions_revision revisionData project_name revisionKey].
  by destruct (revisionData context) as [rd|].
Qed.

Lemma _currentKey_setActivatedRevisionKey (cfg : Config) (context : Context) (k : string) :
  _currentKey cfg (setActivatedRevisionKey context k) = _currentKey cfg context.
Proof. done. Qed.
End PipelineFacts.

(** Round trip of an upload: after [upload] of a key [k] that the manifest
    did not hold (and that is not the pointer key), the next listing holds
    [k] once more than the revisions listed before, with the time of the
    write as its timestamp. *)
Theorem upload_then_listed (gzipSync : string -> list Byte.byte)
    (readFile : string -> FileError + string) (path_join : string -> string -> string)
    (cfg : Config) (context : Context) (k ck buffer : string) (fuel : nat)
    (s : MemStore.State) :
  MemStore.faults s = [] ->
  _key cfg context = inr k ->
  _currentKey cfg context = inr ck ->
  k <> ck ->
  readFile (path_join (distDir context) "index.html") = inr buffer ->
  MemStore.rowsOf s (tableName cfg) !! (manifestTag cfg, k) = None ->
  (length (MemStore.listed cfg ck s) + 1 < fuel)%nat ->
  let s1 := (upload MemStore.client gzipSync readFile path_join cfg context s).1 in
  exists l,
    _list MemStore.client cfg fuel context s1 = (s1, Resolved l)
    /\ {| revision := k;
          timestamp := MemStore.clock s;
          active := strict_eq (MemStore.pointerValue (manifestTag cfg) ck
                                 (MemStore.rowsOf s (tableName cfg))) k |} ∈ l
    /\ revision <$> l ≡ₚ k :: ((fun e => RowKey (entity e)) <$> MemStore.listed cfg ck s).
Proof.
  intros Hf Hk Hck Hne Hfile Hnone Hfuel s1. eexists. split; [|split].
  - by apply (PipelineFacts.uploaded_list gzipSync readFile path_join cfg context k ck buffer).
  - apply list_elem_of_fmap.
    exists (MemStore.toEntry
              ((manifestTag cfg, k),
               {| MemStore.rowContent :=
                    if compressIndex cfg then VBinary (gzipSync buffer) else VString buffer;
                  MemStore.rowCompression := if compressIndex cfg then Some "gzip" else None;
                  MemStore.rowTimestamp := MemStore.clock s |})).
    split; [reflexivity|]. rewrite sort_Permutation.
    rewrite (PipelineFacts.uploaded_listed gzipSync readFile path_join cfg context
               k ck buffer s Hf Hk Hfile Hnone Hne). left.
  - rewrite <-list_fmap_compose. unfold compose. cbn [toRevision revision].
    rewrite sort_Permutation.
    by rewrite (PipelineFacts.uploaded_listed gzipSync readFile path_join cfg context
                  k ck buffer s Hf Hk Hfile Hnone Hne).
Qed.

Lemma upload_then_listed_witness :
  MemStore.faults Samples.store1 = []
  /\ _key defaultConfig Samples.ctxDef = inr "app:def45678"
  /\ _currentKey defaultConfig Samples.ctxDef = inr "app:current"
  /\ "app:def45678" <> "app:current"
  /\ Samples.readFile (Samples.path_join (distDir Samples.ctxDef) "index.html")
     = inr "<html></html>"
  /\ MemStore.rowsOf Samples.store1 (tableName defaultConfig)
       !! (manifestTag defaultConfig, "app:def45678") = None
  /\ (length (MemStore.listed defaultConfig "app:current" Samples.store1) + 1 < 5)%nat
  /\ (let s1 := (upload MemStore.client Samples.gzipSync Samples.readFile Samples.path_join
                   defaultConfig Samples.ctxDef Samples.store1).1 in
      exists l,
        _list MemStore.client defaultConfig 5 Samples.ctxDef s1 = (s1, Resolved l)
        /\ {| revision := "app:def45678";
              timestamp := MemStore.clock Samples.store1;
              active := strict_eq (MemStore.pointerValue (manifestTag defaultConfig)
                                     "app:current"
                                     (MemStore.rowsOf Samples.store1 (tableName defaultConfig)))
                                  "app:def45678" |} ∈ l
        /\ revision <$> l
           ≡ₚ "app:def45678"
              :: ((fun e => RowKey (entity e))
                    <$> MemStore.listed defaultConfig "app:current" Samples.store1)).
Proof.
  assert (MemStore.faults Samples.store1 = []) as H1 by (vm_compute; reflexivity).
  assert (_key defaultConfig Samples.ctxDef = inr "app:def45678") as H2 by reflexivity.
  assert (_currentKey defaultConfig Samples.ctxDef = inr "app:current") as H3 by reflexivity.
  assert ("app:def45678" <> "app:current") as H4 by discriminate.
  assert (Samples.readFile (Samples.path_join (distDir Samples.ctxDef) "index.html")
          = inr "<html></html>") as H5 by reflexivity.
  assert (MemStore.rowsOf Samples.store1 (tableName defaultConfig)
            !! (manifestTag defaultConfig, "app:def45678") = None) as H6
    by (vm_compute; reflexivity).
  assert (length (MemStore.listed defaultConfig "app:current" Samples.store1) + 1 < 5)%nat
    as H7 by (vm_compute; lia).
  do 7 (split; [assumption|]).
  exact (upload_then_listed Samples.gzipSync Samples.readFile Samples.path_join
           defaultConfig Samples.ctxDef "app:def45678" "app:current" "<html></html>" 5
           Samples.store1 H1 H2 H3 H4 H5 H6 H7).
Defined.

(** An upload whose revision is [current] derives the pointer key: when the
    pointer row does not exist yet, the page is stored in it and [_current]
    then resolves with the page content.  The next listing holds the same
    revisions with the same timestamps as before, so the upload is not
    listed; but where no entry was active before, it now marks active the
    entries whose revision is the page content. *)
Theorem upload_revision_current_sets_pointer (gzipSync : string -> list Byte.byte)
    (readFile : string -> FileError + string) (path_join : string -> string -> string)
    (cfg : Config) (context : Context) (k buffer : string) (fuel : nat)
    (s s0 : MemStore.State) (l : list Revision) :
  MemStore.faults s = [] ->
  _key cfg context = inr k ->
  _currentKey cfg context = inr k ->
  readFile (path_join (distDir context) "index.html") = inr buffer ->
  MemStore.rowsOf s (tableName cfg) !! (manifestTag cfg, k) = None ->
  _list MemStore.client cfg fuel context s = (s0, Resolved l) ->
  let run := upload MemStore.client gzipSync readFile path_join cfg context s in
  run.2 = Resolved tt
  /\ _current MemStore.client cfg context run.1
     = (run.1, Resolved (if compressIndex cfg then VBinary (gzipSync buffer)
                         else VString buffer))
  /\ Forall (fun r => active r = false) l
  /\ exists l',
      _list MemStore.client cfg fuel context run.1 = (run.1, Resolved l')
      /\ revision <$> l' = revision <$> l
      /\ timestamp <$> l' = timestamp <$> l
      /\ Forall (fun r => active r = if compressIndex cfg then false
                                     else String.eqb buffer (revision r)) l'.
Proof.
  intros Hf Hk Hck Hfile Hnone Hl run.
  pose proof (PipelineFacts.uploaded_rows gzipSync readFile path_join cfg context k buffer s
                Hf Hk Hfile Hnone) as Hrows.
  pose proof (PipelineFacts.uploaded_faults gzipSync readFile path_join cfg context k buffer s
                Hf Hk Hfile Hnone) as Hf1.
  pose proof (PipelineFacts.uploaded_ensure gzipSync readFile path_join cfg context k buffer s
                Hf Hk Hfile Hnone) as Hens.
  pose proof (PipelineFacts.uploaded_pageLimit gzipSync readFile path_join cfg context k
                buffer s Hf Hk Hfile Hnone) as Hlim.
  fold run in Hrows, Hf1, Hens, Hlim.
  assert (MemStore.pointerValue (manifestTag cfg) k (MemStore.rowsOf run.1 (tableName cfg))
          = if compressIndex cfg then VBinary (gzipSync buffer) else VString buffer) as Hptr
    by (unfold MemStore.pointerValue; by rewrite Hrows, lookup_insert_eq).
  assert (MemStore.listed cfg k run.1 = MemStore.listed cfg k s) as Hlisted
    by (unfold MemStore.listed; rewrite Hrows; apply MemStoreFacts.select_ne_insert).
  destruct (ListingFacts._list_value cfg context k fuel s s0 l Hck Hf Hl) as [_ Hlv].
  unfold MemStore.pointerValue in Hlv. rewrite Hnone in Hlv.
  pose proof (MemStoreFacts._list_ok cfg context k Hck fuel s Hf) as Hok. rewrite Hl in Hok.
  destruct (MemStore.fetchAll fuel (MemStore.pageLimit s) 0 (MemStore.listed cfg k s) [])
    as [es|] eqn:Hes; [|discriminate Hok].
  pose proof (MemStoreFacts.fetchAll_Some _ _ _ _ _ _ Hes) as Hall.
  rewrite drop_0, app_nil_l in Hall. subst es.
  split; [|split; [|split]].
  - by apply (PipelineFacts.uploaded_outcome gzipSync readFile path_join cfg context k buffer).
  - rewrite (MemStoreFacts._current_ok cfg context k Hck run.1 Hf1). by rewrite Hens, Hptr.
  - rewrite Hlv. apply Forall_fmap, Forall_forall. done.
  - eexists. split; [|split; [|split]].
    + rewrite (MemStoreFacts._list_ok cfg context k Hck fuel run.1 Hf1).
      by rewrite Hens, Hlim, Hlisted, Hes, Hptr.
    + rewrite Hlv, <-!list_fmap_compose. done.
    + rewrite Hlv, <-!list_fmap_compose. done.
    + apply Forall_fmap, Forall_forall. intros e _. unfold compose.
      cbn [toRevision active revision]. by destruct (compressIndex cfg).
Qed.

Lemma upload_revision_current_sets_pointer_witness :
  MemStore.faults Samples.store3 = []
  /\ _key defaultConfig Samples.ctxCurrent = inr "app:current"
  /\ _currentKey defaultConfig Samples.ctxCurrent = inr "app:current"
  /\ Samples2.readKeyFile (Samples.path_join (distDir Samples.ctxCurrent) "index.html")
     = inr "app:abc"
  /\ MemStore.rowsOf Samples.store3 (tableName defaultConfig)
       !! (manifestTag defaultConfig, "app:current") = None
  /\ _list MemStore.client defaultConfig 5 Samples.ctxCurrent Samples.store3
     = (Samples.store3, Resolved (Samples.listing3 false))
  /\ (let run := upload MemStore.client Samples.gzipSync Samples2.readKeyFile
                   Samples.path_join defaultConfig Samples.ctxCurrent Samples.store3 in
      _list MemStore.client defaultConfig 5 Samples.ctxCurrent run.1
      = (run.1, Resolved (Samples.listing3 true)))
  /\ (let run := upload MemStore.client Samples.gzipSync Samples2.readKeyFile
                   Samples.path_join defaultConfig Samples.ctxCurrent Samples.store3 in
      run.2 = Resolved tt
      /\ _current MemStore.client defaultConfig Samples.ctxCurrent run.1
         = (run.1, Resolved (if compressIndex defaultConfig
                             then VBinary (Samples.gzipSync "app:abc")
                             else VString "app:abc"))
      /\ Forall (fun r => active r = false) (Samples.listing3 false)
      /\ exists l',
          _list MemStore.client defaultConfig 5 Samples.ctxCurrent run.1 = (run.1, Resolved l')
          /\ revision <$> l' = revision <$> Samples.listing3 false
          /\ timestamp <$> l' = timestamp <$> Samples.listing3 false
          /\ Forall (fun r => active r = if compressIndex defaultConfig then false
                                         else String.eqb "app:abc" (revision r)) l').
Proof.
  assert (MemStore.faults Samples.store3 = []) as H1 by (vm_compute; reflexivity).
  assert (_key defaultConfig Samples.ctxCurrent = inr "app:current") as H2 by reflexivity.
  assert (_currentKey defaultConfig Samples.ctxCurrent = inr "app:current") as H3
    by reflexivity.
  assert (Samples2.readKeyFile (Samples.path_join (distDir Samples.ctxCurrent) "index.html")
          = inr "app:abc") as H4 by reflexivity.
  assert (MemStore.rowsOf Samples.store3 (tableName defaultConfig)
            !! (manifestTag defaultConfig, "app:current") = None) as H5
    by (vm_compute; reflexivity).
  assert (_list MemStore.client defaultConfig 5 Samples.ctxCurrent Samples.store3
          = (Samples.store3, Resolved (Samples.listing3 false))) as H6
    by (vm_compute; reflexivity).
  do 6 (split; [assumption|]). split; [vm_compute; reflexivity|].
  exact (upload_revision_current_sets_pointer Samples.gzipSync Samples2.readKeyFile
           Samples.path_join defaultConfig Samples.ctxCurrent "app:current" "app:abc" 5
           Samples.store3 Samples.store3 (Samples.listing3 false) H1 H2 H3 H4 H5 H6).
Defined.

(** Deploy, then activate: after [upload] of a new key [k], [activate] with
    the same context resolves and [_current] then resolves with [k], unless
    [k] is the pointer key (revision [current]): the upload is then not
    listed, and [activate] is rejected with the not-in-manifest message. *)
Theorem upload_then_activate (gzipSync : string -> list Byte.byte)
    (readFile : string -> FileError + string) (path_join : string -> string -> string)
    (cfg : Config) (context : Context) (k ck buffer : string) (fuel : nat)
    (s : MemStore.State) :
  MemStore.faults s = [] ->
  _key cfg context = inr k ->
  _currentKey cfg context = inr ck ->
  readFile (path_join (distDir context) "index.html") = inr buffer ->
  MemStore.rowsOf s (tableName cfg) !! (manifestTag cfg, k) = None ->
  (length (MemStore.listed cfg ck s) + 1 < fuel)%nat ->
  let s1 := (upload MemStore.client gzipSync readFile path_join cfg context s).1 in
  (k <> ck ->
     exists s2,
       activate MemStore.client cfg fuel context s1
         = (s2, Resolved (setActivatedRevisionKey context k))
       /\ _current MemStore.client cfg context s2 = (s2, Resolved (VString k)))
  /\ (k = ck ->
      exists s2,
        activate MemStore.client cfg fuel context s1
          = (s2, Rejected (Message (notInManifestMessage k)))).
Proof.
  intros Hf Hk Hck Hfile Hnone Hfuel s1.
  pose proof (PipelineFacts.uploaded_faults gzipSync readFile path_join cfg context k buffer s
                Hf Hk Hfile Hnone) as Hf1.
  fold s1 in Hf1. split.
  - intros Hne.
    pose proof (PipelineFacts.uploaded_list gzipSync readFile path_join cfg context k ck
                  buffer s Hf Hk Hck Hfile Hnone fuel Hne Hfuel) as Hl.
    fold s1 in Hl. eexists. split.
    + rewrite (MemStoreFacts.activate_ok cfg context k ck Hk Hck fuel s1 s1 _ Hf1 Hl).
      rewrite (proj2 (MemStoreFacts.existsb_revision k _)); [done|].
      rewrite <-list_fmap_compose. unfold compose. cbn [toRevision revision].
      by apply (PipelineFacts.uploaded_key_listed gzipSync readFile path_join cfg context
                  k ck buffer s).
    + by apply MemStoreFacts._current_activated.
  - intros <-.
    pose proof (PipelineFacts.uploaded_rows gzipSync readFile path_join cfg context k buffer s
                  Hf Hk Hfile Hnone) as Hrows.
    fold s1 in Hrows.
    assert (MemStore.listed cfg k s1 = MemStore.listed cfg k s) as Hlisted
      by (unfold MemStore.listed; rewrite Hrows; apply MemStoreFacts.select_ne_insert).
    assert ((length (MemStore.listed cfg k s1) < fuel)%nat) as Hfuel1
      by (rewrite Hlisted; lia).
    pose proof (MemStoreFacts._list_resolves cfg context k Hck fuel s1 Hf1 Hfuel1) as Hl.
    eexists.
    rewrite (MemStoreFacts.activate_ok cfg context k k Hk Hck fuel s1 _ _ Hf1 Hl).
    destruct (existsb _ _) eqn:He; [|done]. exfalso.
    apply MemStoreFacts.existsb_revision in He.
    apply list_elem_of_fmap in He as (r & Hr & Hin).
    apply list_elem_of_fmap in Hin as (e & -> & Hin).
    rewrite sort_Permutation in Hin. unfold MemStore.listed in Hin.
    apply ListingFacts.elem_of_select in Hin as (key & row & -> & _ & Hq).
    apply MemStoreFacts.matchesKey_rowQuery in Hq as [_ Hq]. by apply Hq.
Qed.

Lemma upload_then_activate_witness :
  MemStore.faults Samples.store1 = []
  /\ _key defaultConfig Samples.ctxDef = inr "app:def45678"
  /\ _currentKey defaultConfig Samples.ctxDef = inr "app:current"
  /\ Samples.readFile (Samples.path_join (distDir Samples.ctxDef) "index.html")
     = inr "<html></html>"
  /\ MemStore.rowsOf Samples.store1 (tableName defaultConfig)
       !! (manifestTag defaultConfig, "app:def45678") = None
  /\ (length (MemStore.listed defaultConfig "app:current" Samples.store1) + 1 < 5)%nat
  /\ "app:def45678" <> "app:current"
  /\ (let s1 := (upload MemStore.client Samples.gzipSync Samples.readFile Samples.path_join
                   defaultConfig Samples.ctxDef Samples.store1).1 in
      ("app:def45678" <> "app:current" ->
         exists s2,
           activate MemStore.client defaultConfig 5 Samples.ctxDef s1
             = (s2, Resolved (setActivatedRevisionKey Samples.ctxDef "app:def45678"))
           /\ _current MemStore.client defaultConfig Samples.ctxDef s2
              = (s2, Resolved (VString "app:def45678")))
      /\ ("app:def45678" = "app:current" ->
          exists s2,
            activate MemStore.client defaultConfig 5 Samples.ctxDef s1
              = (s2, Rejected (Message (notInManifestMessage "app:def45678"))))).
Proof.
  assert (MemStore.faults Samples.store1 = []) as H1 by (vm_compute; reflexivity).
  assert (_key defaultConfig Samples.ctxDef = inr "app:def45678") as H2 by reflexivity.
  assert (_currentKey defaultConfig Samples.ctxDef = inr "app:current") as H3 by reflexivity.
  assert (Samples.readFile (Samples.path_join (distDir Samples.ctxDef) "index.html")
          = inr "<html></html>") as H5 by reflexivity.
  assert (MemStore.rowsOf Samples.store1 (tableName defaultConfig)
            !! (manifestTag defaultConfig, "app:def45678") = None) as H6
    by (vm_compute; reflexivity).
  assert (length (MemStore.listed defaultConfig "app:current" Samples.store1) + 1 < 5)%nat
    as H7 by (vm_compute; lia).
  assert ("app:def45678" <> "app:current") as H4 by discriminate.
  do 7 (split; [assumption|]).
  exact (upload_then_activate Samples.gzipSync Samples.readFile Samples.path_join
           defaultConfig Samples.ctxDef "app:def45678" "app:current" "<html></html>" 5
           Samples.store1 H1 H2 H3 H5 H6 H7).
Defined.

(** With [--revision current] on a store that has no pointer yet, the upload
    resolves and the activation that follows is rejected. *)
Example upload_current_then_activate_rejected :
  let run := upload MemStore.client Samples.gzipSync Samples.readFile Samples.path_join
               defaultConfig Samples.ctxCurrent Samples.store3 in
  run.2 = Resolved tt
  /\ (activate MemStore.client defaultConfig 5 Samples.ctxCurrent run.1).2
     = Rejected (Message "Revision app:current not in manifest").
Proof. vm_compute. split; reflexivity. Qed.

(** A second upload that derives the same row key, be it the same build
    again or another build whose hash has the same first eight characters,
    is rejected as a duplicate and leaves the first upload's row as it is. *)
Theorem upload_same_key_twice (gzipSync : string -> list Byte.byte)
    (readFile : string -> FileError + string) (path_join : string -> string -> string)
    (cfg : Config) (context1 context2 : Context) (k buffer1 buffer2 : string)
    (s : MemStore.State) :
  MemStore.faults s = [] ->
  _key cfg context1 = inr k ->
  _key cfg context2 = inr k ->
  readFile (path_join (distDir context1) "index.html") = inr buffer1 ->
  readFile (path_join (distDir context2) "index.html") = inr buffer2 ->
  MemStore.rowsOf s (tableName cfg) !! (manifestTag cfg, k) = None ->
  let run1 := upload MemStore.client gzipSync readFile path_join cfg context1 s in
  let run2 := upload MemStore.client gzipSync readFile path_join cfg context2 run1.1 in
  run1.2 = Resolved tt
  /\ run2.2 = Rejected (Message duplicateMessage)
  /\ forall name, MemStore.rowsOf run2.1 name = MemStore.rowsOf run1.1 name.
Proof.
  intros Hf Hk1 Hk2 Hfile1 Hfile2 Hnone run1 run2.
  pose proof (PipelineFacts.uploaded_faults gzipSync readFile path_join cfg context1 k buffer1
                s Hf Hk1 Hfile1 Hnone) as Hf1.
  pose proof (PipelineFacts.uploaded_rows gzipSync readFile path_join cfg context1 k buffer1
                s Hf Hk1 Hfile1 Hnone) as Hrows.
  fold run1 in Hf1, Hrows.
  split; [by apply (PipelineFacts.uploaded_outcome gzipSync readFile path_join cfg context1
                      k buffer1)|].
  unfold run2. rewrite (StoreRuns.upload_run _ _ _ _ _ k buffer2) by done.
  rewrite Hrows, lookup_insert_eq. cbn [fst snd]. split; [done|].
  intros name. apply MemStoreFacts.rowsOf_ensure.
Qed.

Lemma upload_same_key_twice_witness :
  MemStore.faults Samples.store3 = []
  /\ _key defaultConfig Samples2.ctxHashA = inr "app:01234567"
  /\ _key defaultConfig Samples2.ctxHashB = inr "app:01234567"
  /\ Samples.readFile (Samples.path_join (distDir Samples2.ctxHashA) "index.html")
     = inr "<html></html>"
  /\ Samples.readFile (Samples.path_join (distDir Samples2.ctxHashB) "index.html")
     = inr "<html></html>"
  /\ MemStore.rowsOf Samples.store3 (tableName defaultConfig)
       !! (manifestTag defaultConfig, "app:01234567") = None
  /\ (let run1 := upload MemStore.client Samples.gzipSync Samples.readFile Samples.path_join
                    defaultConfig Samples2.ctxHashA Samples.store3 in
      let run2 := upload MemStore.client Samples.gzipSync Samples.readFile Samples.path_join
                    defaultConfig Samples2.ctxHashB run1.1 in
      run1.2 = Resolved tt
      /\ run2.2 = Rejected (Message duplicateMessage)
      /\ forall name, MemStore.rowsOf run2.1 name = MemStore.rowsOf run1.1 name).
Proof.
  assert (MemStore.faults Samples.store3 = []) as H1 by (vm_compute; reflexivity).
  assert (_key defaultConfig Samples2.ctxHashA = inr "app:01234567") as H2 by reflexivity.
  assert (_key defaultConfig Samples2.ctxHashB = inr "app:01234567") as H3 by reflexivity.
  assert (Samples.readFile (Samples.path_join (distDir Samples2.ctxHashA) "index.html")
          = inr "<html></html>") as H4 by reflexivity.
  assert (Samples.readFile (Samples.path_join (distDir Samples2.ctxHashB) "index.html")
          = inr "<html></html>") as H5 by reflexivity.
  assert (MemStore.rowsOf Samples.store3 (tableName defaultConfig)
            !! (manifestTag defaultConfig, "app:01234567") = None) as H6
    by (vm_compute; reflexivity).
  do 6 (split; [assumption|]).
  exact (upload_same_key_twice Samples.gzipSync Samples.readFile Samples.path_join
           defaultConfig Samples2.ctxHashA Samples2.ctxHashB "app:01234567"
           "<html></html>" "<html></html>" Samples.store3 H1 H2 H3 H4 H5 H6).
Defined.

(** ** Activating *)

(** An activation changes the listing only in its flags: after [activate],
    whether it resolved or was rejected for an unlisted key, the next listing
    holds the same revisions with the same timestamps, in the same order, and
    marks an entry active exactly if its revision is the key of that
    activation; so after a rejected activation no entry is marked active. *)
Theorem activate_keeps_revisions (cfg : Config) (context : Context) (k : string)
    (fuel : nat) (s s0 : MemStore.State) (l : list Revision) :
  MemStore.faults s = [] ->
  _key cfg context = inr k ->
  _list MemStore.client cfg fuel context s = (s0, Resolved l) ->
  let s1 := (activate MemStore.client cfg fuel context s).1 in
  exists l',
    _list MemStore.client cfg fuel context s1 = (s1, Resolved l')
    /\ revision <$> l' = revision <$> l
    /\ timestamp <$> l' = timestamp <$> l
    /\ Forall (fun r => active r = true <-> revision r = k) l'
    /\ (k ∉ revision <$> l -> Forall (fun r => active r = false) l').
Proof.
  intros Hf Hk Hl s1.
  destruct (_key_inv _ _ _ Hk) as (p & r & Hp & _ & _).
  pose proof (_currentKey_eq _ _ _ Hp) as Hck.
  destruct (MemStoreFacts._list_activated cfg context k _ Hck fuel s s0 l Hf Hl) as [Hl' Hrev].
  destruct (ListingFacts._list_value cfg context _ fuel s s0 l Hck Hf Hl) as [_ Hlv].
  unfold s1. rewrite (MemStoreFacts.activate_ok cfg context k _ Hk Hck fuel s s0 l Hf Hl).
  cbn [fst]. eexists. split; [exact Hl'|].
  assert (Forall (fun r => active r = true <-> revision r = k)
            (toRevision (VString k) <$> sort byTimestampDesc
               (MemStore.listed cfg (p +:+ ":current") s))) as Hact.
  { apply Forall_fmap, Forall_forall. intros e _. unfold compose.
    cbn [toRevision active revision strict_eq]. rewrite String.eqb_eq. split; congruence. }
  split; [|split; [|split; [exact Hact|]]].
  - rewrite Hrev. rewrite <-list_fmap_compose. done.
  - rewrite Hlv, <-!list_fmap_compose. done.
  - intros Hnot. rewrite Hrev in Hnot.
    apply Forall_fmap, Forall_forall. intros e He. unfold compose.
    cbn [toRevision active strict_eq]. apply String.eqb_neq. intros ->.
    apply Hnot. apply list_elem_of_fmap. eauto.
Qed.

Lemma activate_keeps_revisions_witness :
  MemStore.faults Samples.store3active = []
  /\ _key defaultConfig Samples.ctxZzz = inr "app:zzz"
  /\ _list MemStore.client defaultConfig 5 Samples.ctxZzz Samples.store3active
     = (Samples.store3active, Resolved (Samples.listing3 true))
  /\ (let s1 := (activate MemStore.client defaultConfig 5 Samples.ctxZzz
                   Samples.store3active).1 in
      exists l',
        _list MemStore.client defaultConfig 5 Samples.ctxZzz s1 = (s1, Resolved l')
        /\ revision <$> l' = revision <$> Samples.listing3 true
        /\ timestamp <$> l' = timestamp <$> Samples.listing3 true
        /\ Forall (fun r => active r = true <-> revision r = "app:zzz") l'
        /\ ("app:zzz" ∉ revision <$> Samples.listing3 true ->
            Forall (fun r => active r = false) l')).
Proof.
  assert (MemStore.faults Samples.store3active = []) as H1 by (vm_compute; reflexivity).
  assert (_key defaultConfig Samples.ctxZzz = inr "app:zzz") as H2 by reflexivity.
  assert (_list MemStore.client defaultConfig 5 Samples.ctxZzz Samples.store3active
          = (Samples.store3active, Resolved (Samples.listing3 true))) as H3
    by (vm_compute; reflexivity).
  do 3 (split; [assumption|]).
  exact (activate_keeps_revisions defaultConfig Samples.ctxZzz "app:zzz" 5
           Samples.store3active Samples.store3active _ H1 H2 H3).
Defined.

(** Last write wins: of two activations of listed keys, one after the other,
    both resolve, [_current] then resolves with the key of the second, and the
    second adds no row: the pointer is one row that is replaced. *)
Theorem activate_last_write_wins (cfg : Config) (context1 context2 : Context)
    (k1 k2 ck : string) (fuel : nat) (s s0 : MemStore.State) (l : list Revision) :
  MemStore.faults s = [] ->
  _key cfg context1 = inr k1 ->
  _key cfg context2 = inr k2 ->
  _currentKey cfg context1 = inr ck ->
  _currentKey cfg context2 = inr ck ->
  _list MemStore.client cfg fuel context1 s = (s0, Resolved l) ->
  k1 ∈ revision <$> l ->
  k2 ∈ revision <$> l ->
  exists s1 s2,
    activate MemStore.client cfg fuel context1 s
      = (s1, Resolved (setActivatedRevisionKey context1 k1))
    /\ activate MemStore.client cfg fuel context2 s1
       = (s2, Resolved (setActivatedRevisionKey context2 k2))
    /\ _current MemStore.client cfg context2 s2 = (s2, Resolved (VString k2))
    /\ size (MemStore.rowsOf s2 (tableName cfg)) = size (MemStore.rowsOf s1 (tableName cfg)).
Proof.
  intros Hf Hk1 Hk2 Hck1 Hck2 Hl Hin1 Hin2.
  set (s1 := MemStore.written (tableName cfg) (MemStore.pointerEntity cfg ck k1)
               (MemStore.ensure (tableName cfg) s)).
  assert (MemStore.faults s1 = []) as Hf1
    by (unfold s1; by rewrite MemStoreFacts.faults_written, MemStoreFacts.faults_ensure).
  destruct (MemStoreFacts._list_activated cfg context1 k1 ck Hck1 fuel s s0 l Hf Hl)
    as [Hl1 Hrev].
  fold s1 in Hl1.
  rewrite (StoreRuns._list_context MemStore.client cfg context1 context2) in Hl1
    by congruence.
  exists s1, (MemStore.written (tableName cfg) (MemStore.pointerEntity cfg ck k2)
                (MemStore.ensure (tableName cfg) s1)).
  split; [|split; [|split]].
  - rewrite (MemStoreFacts.activate_ok cfg context1 k1 ck Hk1 Hck1 fuel s s0 l Hf Hl).
    by rewrite (proj2 (MemStoreFacts.existsb_revision k1 l) Hin1).
  - rewrite (MemStoreFacts.activate_ok cfg context2 k2 ck Hk2 Hck2 fuel s1 s1 _ Hf1 Hl1).
    rewrite (proj2 (MemStoreFacts.existsb_revision k2 _)); [done|].
    rewrite <-list_fmap_compose. unfold compose. cbn [toRevision revision].
    by rewrite <-Hrev.
  - by apply MemStoreFacts._current_activated.
  - rewrite MemStoreFacts.rowsOf_written_ensure.
    cbn [MemStore.pointerEntity PartitionKey RowKey].
    apply map_size_insert_Some.
    unfold s1. rewrite MemStoreFacts.rowsOf_written_ensure.
    cbn [MemStore.pointerEntity PartitionKey RowKey]. rewrite lookup_insert_eq. eauto.
Qed.

Lemma activate_last_write_wins_witness :
  MemStore.faults Samples.store3 = []
  /\ _key defaultConfig Samples.ctxAbc = inr "app:abc"
  /\ _key defaultConfig Samples.ctxGhi = inr "app:ghi"
  /\ _currentKey defaultConfig Samples.ctxAbc = inr "app:current"
  /\ _currentKey defaultConfig Samples.ctxGhi = inr "app:current"
  /\ _list MemStore.client defaultConfig 5 Samples.ctxAbc Samples.store3
     = (Samples.store3, Resolved (Samples.listing3 false))
  /\ "app:abc" ∈ revision <$> Samples.listing3 false
  /\ "app:ghi" ∈ revision <$> Samples.listing3 false
  /\ exists s1 s2,
       activate MemStore.client defaultConfig 5 Samples.ctxAbc Samples.store3
         = (s1, Resolved (setActivatedRevisionKey Samples.ctxAbc "app:abc"))
       /\ activate MemStore.client defaultConfig 5 Samples.ctxGhi s1
          = (s2, Resolved (setActivatedRevisionKey Samples.ctxGhi "app:ghi"))
       /\ _current MemStore.client defaultConfig Samples.ctxGhi s2
          = (s2, Resolved (VString "app:ghi"))
       /\ size (MemStore.rowsOf s2 (tableName defaultConfig))
          = size (MemStore.rowsOf s1 (tableName defaultConfig)).
Proof.
  assert (MemStore.faults Samples.store3 = []) as H1 by (vm_compute; reflexivity).
  assert (_key defaultConfig Samples.ctxAbc = inr "app:abc") as H2 by reflexivity.
  assert (_key defaultConfig Samples.ctxGhi = inr "app:ghi") as H3 by reflexivity.
  assert (_currentKey defaultConfig Samples.ctxAbc = inr "app:current") as H4 by reflexivity.
  assert (_currentKey defaultConfig Samples.ctxGhi = inr "app:current") as H5 by reflexivity.
  assert (_list MemStore.client defaultConfig 5 Samples.ctxAbc Samples.store3
          = (Samples.store3, Resolved (Samples.listing3 false))) as H6
    by (vm_compute; reflexivity).
  assert ("app:abc" ∈ revision <$> Samples.listing3 false) as H7
    by (simpl; repeat constructor).
  assert ("app:ghi" ∈ revision <$> Samples.listing3 false) as H8
    by (simpl; repeat constructor).
  do 8 (split; [assumption|]).
  exact (activate_last_write_wins defaultConfig Samples.ctxAbc Samples.ctxGhi
           "app:abc" "app:ghi" "app:current" 5 Samples.store3 Samples.store3 _
           H1 H2 H3 H4 H5 H6 H7 H8).
Defined.

(** [willActivate], then [activate] on the context it leaves: the context
    ends up with [previousRevisionKey] holding what the pointer held before
    and [activatedRevisionKey] holding the activated key, which is what
    [_current] then resolves with. *)
Theorem willActivate_then_activate (cfg : Config) (context : Context) (k ck : string)
    (fuel : nat) (s s0 : MemStore.State) (l : list Revision) :
  MemStore.faults s = [] ->
  _key cfg context = inr k ->
  _currentKey cfg context = inr ck ->
  _list MemStore.client cfg fuel context s = (s0, Resolved l) ->
  k ∈ revision <$> l ->
  exists s1 context1 s2 context2 rd,
    willActivate MemStore.client cfg context s = (s1, Resolved context1)
    /\ activate MemStore.client cfg fuel context1 s1 = (s2, Resolved context2)
    /\ revisionData context2 = Some rd
    /\ previousRevisionKey rd
       = Some (match MemStore.rowsOf s (tableName cfg) !! (manifestTag cfg, ck) with
               | Some row => MemStore.rowContent row
               | None => VNull
               end)
    /\ activatedRevisionKey rd = Some k
    /\ _current MemStore.client cfg context2 s2 = (s2, Resolved (VString k)).
Proof.
  intros Hf Hk Hck Hl Hin.
  set (current := MemStore.pointerValue (manifestTag cfg) ck
                    (MemStore.rowsOf s (tableName cfg))).
  set (context1 := setPreviousRevisionKey context current).
  set (s1 := MemStore.ensure (tableName cfg) s).
  destruct (PipelineFacts._key_setPreviousRevisionKey cfg context current) as [Hk1 Hck1].
  fold context1 in Hk1, Hck1. rewrite Hk in Hk1. rewrite Hck in Hck1.
  assert (MemStore.faults s1 = []) as Hf1 by (unfold s1; by rewrite MemStoreFacts.faults_ensure).
  assert (_list MemStore.client cfg fuel context1 s1 = (s1, Resolved l)) as Hl1.
  { rewrite (StoreRuns._list_context MemStore.client cfg context1 context) by congruence.
    pose proof (Hlist_ok := MemStoreFacts._list_ok cfg context ck Hck fuel).
    rewrite (Hlist_ok s Hf) in Hl.
    rewrite (Hlist_ok s1 Hf1). unfold s1.
    rewrite MemStoreFacts.ensure_idem, MemStoreFacts.pageLimit_ensure,
      ListingFacts.listed_ensure, MemStoreFacts.rowsOf_ensure.
    injection Hl as _ Hl. by rewrite Hl. }
  eexists s1, context1, _, _, _. split; [|split; [|split; [|split; [|split]]]].
  - unfold willActivate, then_, AsyncMonad.resolve.
    by rewrite (MemStoreFacts._current_ok cfg context ck Hck s Hf).
  - rewrite (MemStoreFacts.activate_ok cfg context1 k ck Hk1 Hck1 fuel s1 s1 l Hf1 Hl1).
    by rewrite (proj2 (MemStoreFacts.existsb_revision k l) Hin).
  - reflexivity.
  - reflexivity.
  - reflexivity.
  - rewrite (StoreRuns._current_context MemStore.client cfg _ context1) by done.
    by apply MemStoreFacts._current_activated.
Qed.

Lemma willActivate_then_activate_witness :
  MemStore.faults Samples.store3active = []
  /\ _key defaultConfig Samples.ctxGhi = inr "app:ghi"
  /\ _currentKey defaultConfig Samples.ctxGhi = inr "app:current"
  /\ _list MemStore.client defaultConfig 5 Samples.ctxGhi Samples.store3active
     = (Samples.store3active, Resolved (Samples.listing3 true))
  /\ "app:ghi" ∈ revision <$> Samples.listing3 true
  /\ exists s1 context1 s2 context2 rd,
       willActivate MemStore.client defaultConfig Samples.ctxGhi Samples.store3active
         = (s1, Resolved context1)
       /\ activate MemStore.client defaultConfig 5 context1 s1 = (s2, Resolved context2)
       /\ revisionData context2 = Some rd
       /\ previousRevisionKey rd
          = Some (match MemStore.rowsOf Samples.store3active (tableName defaultConfig)
                        !! (manifestTag defaultConfig, "app:current") with
                  | Some row => MemStore.rowContent row
                  | None => VNull
                  end)
       /\ activatedRevisionKey rd = Some "app:ghi"
       /\ _current MemStore.client defaultConfig context2 s2
          = (s2, Resolved (VString "app:ghi")).
Proof.
  assert (MemStore.faults Samples.store3active = []) as H1 by (vm_compute; reflexivity).
  assert (_key defaultConfig Samples.ctxGhi = inr "app:ghi") as H2 by reflexivity.
  assert (_currentKey defaultConfig Samples.ctxGhi = inr "app:current") as H3 by reflexivity.
  assert (_list MemStore.client defaultConfig 5 Samples.ctxGhi Samples.store3active
          = (Samples.store3active, Resolved (Samples.listing3 true))) as H4
    by (vm_compute; reflexivity).
  assert ("app:ghi" ∈ revision <$> Samples.listing3 true) as H5
    by (simpl; repeat constructor).
  do 5 (split; [assumption|]).
  exact (willActivate_then_activate defaultConfig Samples.ctxGhi "app:ghi" "app:current" 5
           Samples.store3active Samples.store3active _ H1 H2 H3 H4 H5).
Defined.

(** ** Paging, the empty manifest, and failures *)

(** The listing does not depend on how the store cuts the answer into
    pages: with fuel for one fetch per row, it is the same for every page
    size. *)
Theorem list_independent_of_paging (cfg : Config) (context : Context) (ck : string)
    (fuel limit : nat) (s : MemStore.State) :
  MemStore.faults s = [] ->
  _currentKey cfg context = inr ck ->
  (length (MemStore.listed cfg ck s) < fuel)%nat ->
  (_list MemStore.client cfg fuel context (withPageLimit s limit)).2
    = (_list MemStore.client cfg fuel context s).2
  /\ exists l, (_list MemStore.client cfg fuel context s).2 = Resolved l
               /\ length l = length (MemStore.listed cfg ck s).
Proof.
  intros Hf Hck Hfuel.
  rewrite (MemStoreFacts._list_resolves cfg context ck Hck fuel s Hf Hfuel).
  rewrite (MemStoreFacts._list_resolves cfg context ck Hck fuel (withPageLimit s limit) Hf Hfuel).
  split; [done|]. eexists. split; [done|].
  by rewrite length_fmap, sort_Permutation.
Qed.

Lemma list_independent_of_paging_witness :
  MemStore.faults Samples.store3 = []
  /\ _currentKey defaultConfig Samples.ctxAbc = inr "app:current"
  /\ (length (MemStore.listed defaultConfig "app:current" Samples.store3) < 5)%nat
  /\ withPageLimit Samples.store3 1 = Samples2.store3wide
  /\ (_list MemStore.client defaultConfig 5 Samples.ctxAbc (withPageLimit Samples.store3 1)).2
     = (_list MemStore.client defaultConfig 5 Samples.ctxAbc Samples.store3).2
  /\ exists l, (_list MemStore.client defaultConfig 5 Samples.ctxAbc Samples.store3).2
               = Resolved l
               /\ length l = length (MemStore.listed defaultConfig "app:current" Samples.store3).
Proof.
  assert (MemStore.faults Samples.store3 = []) as H1 by (vm_compute; reflexivity).
  assert (_currentKey defaultConfig Samples.ctxAbc = inr "app:current") as H2 by reflexivity.
  assert (length (MemStore.listed defaultConfig "app:current" Samples.store3) < 5)%nat as H3
    by (vm_compute; lia).
  do 3 (split; [assumption|]). split; [vm_compute; reflexivity|].
  exact (list_independent_of_paging defaultConfig Samples.ctxAbc "app:current" 5 1
           Samples.store3 H1 H2 H3).
Defined.



(** Over any client: when the first store call, the creation of the table,
    fails, [_current], [_list], [willActivate] and [upload] make no further
    call and reject with that very error, while the promise of [activate] is
    never settled. *)
Theorem table_creation_failure {St Token : Type} (client : TableService St Token)
    (gzipSync : string -> list Byte.byte) (readFile : string -> FileError + string)
    (path_join : string -> string -> string) (cfg : Config) (context : Context)
    (k buffer : string) (fuel : nat) (s s1 : St) (error : StoreError) :
  createTableIfNotExists client (tableName cfg) s = (s1, inl error) ->
  _key cfg context = inr k ->
  readFile (path_join (distDir context) "index.html") = inr buffer ->
  _current client cfg context s = (s1, Rejected (StoreFailure error))
  /\ _list client cfg fuel context s = (s1, Rejected (StoreFailure error))
  /\ willActivate client cfg context s = (s1, Rejected (StoreFailure error))
  /\ upload client gzipSync readFile path_join cfg context s
     = (s1, Rejected (StoreFailure error))
  /\ activate client cfg fuel context s = (s1, Pending).
Proof.
  intros Ht Hk Hfile.
  assert (_current client cfg context s = (s1, Rejected (StoreFailure error))) as Hcur
    by (unfold _current, then_, call; by rewrite Ht).
  assert (_list client cfg fuel context s = (s1, Rejected (StoreFailure error))) as Hl
    by (unfold _list, then_; by rewrite Hcur).
  split; [exact Hcur|]. split; [exact Hl|]. split; [|split].
  - unfold willActivate, then_. by rewrite Hcur.
  - unfold upload. rewrite Hk, Hfile. unfold then_, call. by rewrite Ht.
  - unfold activate. rewrite Hk. destruct (_key_inv _ _ _ Hk) as (p & _ & Hp & _).
    by rewrite Hp, Hl.
Qed.

Lemma table_creation_failure_witness :
  createTableIfNotExists MemStore.client (tableName defaultConfig) Samples2.store3down
    = (Samples.store3, inl Samples.serverBusy)
  /\ _key defaultConfig Samples.ctxAbc = inr "app:abc"
  /\ Samples.readFile (Samples.path_join (distDir Samples.ctxAbc) "index.html")
     = inr "<html></html>"
  /\ _current MemStore.client defaultConfig Samples.ctxAbc Samples2.store3down
     = (Samples.store3, Rejected (StoreFailure Samples.serverBusy))
  /\ _list MemStore.client defaultConfig 5 Samples.ctxAbc Samples2.store3down
     = (Samples.store3, Rejected (StoreFailure Samples.serverBusy))
  /\ willActivate MemStore.client defaultConfig Samples.ctxAbc Samples2.store3down
     = (Samples.store3, Rejected (StoreFailure Samples.serverBusy))
  /\ upload MemStore.client Samples.gzipSync Samples.readFile Samples.path_join
       defaultConfig Samples.ctxAbc Samples2.store3down
     = (Samples.store3, Rejected (StoreFailure Samples.serverBusy))
  /\ activate MemStore.client defaultConfig 5 Samples.ctxAbc Samples2.store3down
     = (Samples.store3, Pending).
Proof.
  assert (createTableIfNotExists MemStore.client (tableName defaultConfig) Samples2.store3down
          = (Samples.store3, inl Samples.serverBusy)) as H1 by (vm_compute; reflexivity).
  assert (_key defaultConfig Samples.ctxAbc = inr "app:abc") as H2 by reflexivity.
  assert (Samples.readFile (Samples.path_join (distDir Samples.ctxAbc) "index.html")
          = inr "<html></html>") as H3 by reflexivity.
  do 3 (split; [assumption|]).
  exact (table_creation_failure MemStore.client Samples.gzipSync Samples.readFile
           Samples.path_join defaultConfig Samples.ctxAbc "app:abc" "<html></html>" 5
           Samples2.store3down Samples.store3 Samples.serverBusy H1 H2 H3).
Defined.

(** Over any client: when the row key cannot be derived (an invalid project
    name, or neither a revision nor revision data), [upload] and [activate]
    throw that exception before any store call; and when [index.html] cannot
    be read, [upload] rejects with the file error before any store call. *)
Theorem no_store_call_without_key_or_file {St Token : Type} (client : TableService St Token)
    (gzipSync : string -> list Byte.byte) (readFile : string -> FileError + string)
    (path_join : string -> string -> string) (cfg : Config) (context : Context)
    (fuel : nat) (s : St) :
  (forall e, _key cfg context = inl e ->
     upload client gzipSync readFile path_join cfg context s = (s, Thrown e)
     /\ activate client cfg fuel context s = (s, Thrown e))
  /\ (forall e, _projectName cfg context = inl e -> exists e', _key cfg context = inl e')
  /\ (forall k error, _key cfg context = inr k ->
        readFile (path_join (distDir context) "index.html") = inl error ->
        upload client gzipSync readFile path_join cfg context s
          = (s, Rejected (FileFailure error))).
Proof.
  split; [|split].
  - intros e He. unfold upload, activate. by rewrite He.
  - intros e He. unfold _key. destruct (revisionKeyOf context); cbn [ExnMonad.bind];
      rewrite ?He; eauto.
  - intros k error Hk Hfile. unfold upload. by rewrite Hk, Hfile.
Qed.

(** A project name with a slash and a tab is refused, the message naming
    the two; [upload] then throws without touching the store; and without a
    revision or revision data [_key] throws a [TypeError]. *)
Example invalid_inputs_examples :
  _projectName defaultConfig Samples2.ctxBadName
    = inl (Error (invalidNameMessage ["/"; String (ascii_of_nat 9) EmptyString]))
  /\ upload MemStore.client Samples.gzipSync Samples.readFile Samples.path_join
       defaultConfig Samples2.ctxBadName Samples.store3
     = (Samples.store3,
        Thrown (Error (invalidNameMessage ["/"; String (ascii_of_nat 9) EmptyString])))
  /\ _key defaultConfig Samples2.ctxNoRevision = inl TypeError.
Proof. repeat split. Qed.
